(** * raporlama: chart geometry and document assembly of [report_with_api.py]

    A shallow embedding of the two SVG bar-chart renderers
    ([create_emotion_charts_html], [create_emotion_charts_html_2]), of the
    prompt builders ([format_qa_section], [generate_llm_prompt]) and of the
    [generate_report] endpoint, which validates the uploaded table, asks the
    language model for a document and post-processes it, followed by the
    properties the specification states about them and by further properties
    of the code.

    Conventions.
    - A Python [dict] with string keys is a [gmap string _].
    - A Python number is a [pynum]: an [int] (unbounded, [Z]) or a [float].
      Floats are kept behind the interface [PyFloat]; every definition and
      most theorems hold for any implementation of it.  The instance used to
      run the model is exact rational arithmetic ([Qc]).  Non-finite floats
      (NaN, infinities) are outside the model: the data model of the
      specification restricts percentages to the interval from 0 to 100.
    - A Python exception is a value of [exn]; a computation that may raise
      has type [result _]. *)

From Stdlib Require Import QArith Qcanon Lia.
From stdpp Require Import base option list gmap strings numbers pretty.

Set Warnings "-register-all".

Local Open Scope string_scope.
Local Open Scope Z_scope.
Local Open Scope list_scope.

(** ** Exceptions *)

(** The exceptions of the modelled code: those its own operations raise,
    [EmptyDataError] of [pd.read_csv], [ValueError] of [int] and of
    [create_pdf_from_html], any other failure of a collaborator, and the
    [HTTPException] the endpoint answers with. *)
Inductive exn : Type :=
| ZeroDivisionError
| KeyError (key : string)
| TypeError (what : string)
| ValueError (msg : string)
| IndexError
| EmptyDataError
| CollaboratorError (msg : string)
| HTTPException (status_code : Z) (detail : string).

Inductive result (A : Type) : Type :=
| Ok (a : A)
| Raise (e : exn).

Arguments Ok {A} a.
Arguments Raise {A} e.

Definition bind {A B : Type} (m : result A) (k : A -> result B) : result B :=
  match m with
  | Ok a => k a
  | Raise e => Raise e
  end.

Notation "'let?' x := m 'in' k" := (bind m (fun x => k))
  (at level 10, x pattern, m at level 100, k at level 200).

(** Runs a fallible loop body over a list and joins what every iteration
    appended, stopping at the first exception. *)
Fixpoint for_each {A B : Type} (body : A -> result (list B)) (l : list A)
  : result (list B) :=
  match l with
  | [] => Ok []
  | a :: l' =>
      let? bs := body a in
      let? rest := for_each body l' in
      Ok (bs ++ rest)
  end.

(** Python's [enumerate]. *)
Fixpoint enumerate_from {A : Type} (i : Z) (l : list A) : list (Z * A) :=
  match l with
  | [] => []
  | a :: l' => (i, a) :: enumerate_from (i + 1) l'
  end.

Definition enumerate {A : Type} (l : list A) : list (Z * A) := enumerate_from 0 l.

(** ** Python numbers *)

(** The operations the source applies to floats. [fdiv] is the quotient for a
    non-zero divisor; the zero test that raises is in [py_truediv].
    [fround2] is [round(x, 2)], [ftrunc] is [int(x)], [frepr] is the text an
    f-string gives for [{x}] and [fformat plus n] the text for [{x:.nf}]
    ([{x:+.nf}] when [plus]). *)
Class PyFloat (float : Type) : Type := {
  of_Z : Z -> float;
  fadd : float -> float -> float;
  fsub : float -> float -> float;
  fmul : float -> float -> float;
  fdiv : float -> float -> float;
  fneg : float -> float;
  fabs : float -> float;
  feqb : float -> float -> bool;
  fltb : float -> float -> bool;
  fleb : float -> float -> bool;
  fround2 : float -> float;
  ftrunc : float -> Z;
  frepr : float -> string;
  fformat : bool -> nat -> float -> string
}.

(** The facts of exact arithmetic that some results below rest on: the
    order of floats is a strict weak order that agrees with the order of the
    ints, a float that is not below 5 is not zero, and zero behaves as zero. *)
Class PyFloatLaws (float : Type) `{PyFloat float} : Prop := {
  fltb_of_Z : forall a b : Z, fltb (of_Z a) (of_Z b) = (a <? b);
  fleb_of_Z : forall a b : Z, fleb (of_Z a) (of_Z b) = (a <=? b);
  fltb_asym : forall x y : float, fltb x y = true -> fltb y x = false;
  fltb_neg_trans : forall x y z : float,
      fltb x y = false -> fltb y z = false -> fltb x z = false;
  not_below_5_nonzero : forall x : float,
      fltb x (of_Z 5) = false -> feqb x (of_Z 0) = false;
  fsub_diag : forall x : float, fsub x x = of_Z 0;
  fround2_zero : fround2 (of_Z 0) = of_Z 0;
  fabs_zero : fabs (of_Z 0) = of_Z 0;
  fdiv_zero_l : forall y : float, fdiv (of_Z 0) y = of_Z 0;
  fmul_zero_l : forall y : float, fmul (of_Z 0) y = of_Z 0;
  fformat_sign : forall (n : nat) (x : float),
      exists digits : string,
        fformat true n x =
          (if fleb (of_Z 0) x then "+" else "-") +:+ digits
}.

Section Model.

Context {float : Type} `{PyFloat float}.

Inductive pynum : Type :=
| PInt (z : Z)
| PFloat (x : float).

Definition to_float (a : pynum) : float :=
  match a with
  | PInt z => of_Z z
  | PFloat x => x
  end.

Definition py_add (a b : pynum) : pynum :=
  match a, b with
  | PInt x, PInt y => PInt (x + y)
  | _, _ => PFloat (fadd (to_float a) (to_float b))
  end.

Definition py_sub (a b : pynum) : pynum :=
  match a, b with
  | PInt x, PInt y => PInt (x - y)
  | _, _ => PFloat (fsub (to_float a) (to_float b))
  end.

Definition py_mul (a b : pynum) : pynum :=
  match a, b with
  | PInt x, PInt y => PInt (x * y)
  | _, _ => PFloat (fmul (to_float a) (to_float b))
  end.

Definition py_is_zero (a : pynum) : bool :=
  match a with
  | PInt z => z =? 0
  | PFloat x => feqb x (of_Z 0)
  end.

(** The float quotient of two numbers, for a non-zero divisor. *)
Definition py_quot (a b : pynum) : pynum :=
  PFloat (fdiv (to_float a) (to_float b)).

(** [a / b]: true division, always a float, [ZeroDivisionError] on zero. *)
Definition py_truediv (a b : pynum) : result pynum :=
  if py_is_zero b then Raise ZeroDivisionError else Ok (py_quot a b).

Definition py_neg (a : pynum) : pynum :=
  match a with
  | PInt z => PInt (- z)
  | PFloat x => PFloat (fneg x)
  end.

Definition py_abs (a : pynum) : pynum :=
  match a with
  | PInt z => PInt (Z.abs z)
  | PFloat x => PFloat (fabs x)
  end.

Definition py_lt (a b : pynum) : bool :=
  match a, b with
  | PInt x, PInt y => x <? y
  | _, _ => fltb (to_float a) (to_float b)
  end.

Definition py_le (a b : pynum) : bool :=
  match a, b with
  | PInt x, PInt y => x <=? y
  | _, _ => fleb (to_float a) (to_float b)
  end.

(** [a >= b] *)
Definition py_ge (a b : pynum) : bool := py_le b a.

(** [round(a, 2)]: an int is returned unchanged. *)
Definition py_round2 (a : pynum) : pynum :=
  match a with
  | PInt z => PInt z
  | PFloat x => PFloat (fround2 x)
  end.

(** [int(a)] *)
Definition py_int (a : pynum) : Z :=
  match a with
  | PInt z => z
  | PFloat x => ftrunc x
  end.

(** The text of [{a}] in an f-string. *)
Definition py_str (a : pynum) : string :=
  match a with
  | PInt z => pretty z
  | PFloat x => frepr x
  end.

(** The text of [{a:.nf}], or of [{a:+.nf}] when [plus]; an int is converted
    to float first. *)
Definition py_format (plus : bool) (n : nat) (a : pynum) : string :=
  fformat plus n (to_float a).


(** [max(x, *xs)]: the first greatest element. *)
Definition py_max (x : pynum) (xs : list pynum) : pynum :=
  foldl (fun m v => if py_lt m v then v else m) x xs.

(** ** SVG elements

    Each f-string appended to [svg_elements] is an element with the values of
    its holes; [render_element] is the f-string. *)

Inductive svg_element : Type :=
| SvgText (x y : pynum) (font_size : Z) (text_anchor fill : string)
    (font_weight : option string) (content : string)
| SvgLine (x1 y1 x2 y2 : pynum) (stroke_width : string)
| SvgRect (x y width height : pynum) (fill : string).

Definition dq : string := String (Ascii.ascii_of_nat 34%nat) EmptyString.
Definition nl : string := String (Ascii.ascii_of_nat 10%nat) EmptyString.

Definition attr (name value : string) : string :=
  " " +:+ name +:+ "=" +:+ dq +:+ value +:+ dq.

Definition render_element (e : svg_element) : string :=
  match e with
  | SvgText x y font_size text_anchor fill font_weight content =>
      "<text" +:+ attr "x" (py_str x) +:+ attr "y" (py_str y)
      +:+ attr "font-family" "IBMPlexSans"
      +:+ attr "font-size" (pretty font_size)
      +:+ attr "text-anchor" text_anchor
      +:+ attr "fill" fill
      +:+ match font_weight with
          | Some w => attr "font-weight" w
          | None => ""
          end
      +:+ ">" +:+ content +:+ "</text>"
  | SvgLine x1 y1 x2 y2 stroke_width =>
      "<line" +:+ attr "x1" (py_str x1) +:+ attr "y1" (py_str y1)
      +:+ attr "x2" (py_str x2) +:+ attr "y2" (py_str y2)
      +:+ attr "stroke" "#ccc" +:+ attr "stroke-width" stroke_width +:+ "/>"
  | SvgRect x y width height fill =>
      "<rect" +:+ attr "x" (py_str x) +:+ attr "y" (py_str y)
      +:+ attr "width" (py_str width) +:+ attr "height" (py_str height)
      +:+ attr "fill" fill +:+ attr "rx" "3" +:+ attr "ry" "3" +:+ "/>"
  end.

(** The rectangles of a list of elements, in order. *)
Record rect : Type := Rect {
  rect_x : pynum;
  rect_y : pynum;
  rect_width : pynum;
  rect_height : pynum;
  rect_fill : string
}.

Definition rects (els : list svg_element) : list rect :=
  omap (fun e => match e with
                 | SvgRect x y w h fill => Some (Rect x y w h fill)
                 | _ => None
                 end) els.



(** [''.join(svg_elements)] *)
Definition join_elements (els : list svg_element) : string :=
  foldr (fun e s => render_element e +:+ s) "" els.

(** ** Tables shared by the two renderers *)

Definition labels_map : gmap string string :=
  list_to_map
    [ ("duygu_mutlu_%", "Mutlu");
      ("duygu_kizgin_%", "Kızgın");
      ("duygu_igrenme_%", "İğrenme");
      ("duygu_korku_%", "Korku");
      ("duygu_uzgun_%", "Üzgün");
      ("duygu_saskin_%", "Şaşkın");
      ("duygu_dogal_%", "Doğal") ].

Definition colors : gmap string string :=
  list_to_map
    [ ("Mutlu", "#d4eac8");
      ("Kızgın", "#e5b9b5");
      ("İğrenme", "#d3cdd7");
      ("Korku", "#a9b4c2");
      ("Üzgün", "#b7d0e2");
      ("Şaşkın", "#fdeac9");
      ("Doğal", "#d8d8d8") ].

Definition emotion_keys_ordered : list string :=
  [ "duygu_mutlu_%"; "duygu_kizgin_%"; "duygu_igrenme_%"; "duygu_korku_%";
    "duygu_uzgun_%"; "duygu_saskin_%"; "duygu_dogal_%" ].

Definition avg_keys : list string :=
  [ "avg_duygu_mutlu_%"; "avg_duygu_kizgin_%"; "avg_duygu_igrenme_%";
    "avg_duygu_korku_%"; "avg_duygu_uzgun_%"; "avg_duygu_saskin_%";
    "avg_duygu_dogal_%" ].

(** The element of [emotion_values] and of [diffs]:
    [{"name": ..., "value": ...}]. *)
Record entry : Type := Entry { name : string; value : pynum }.

Definition no_data_message : string :=
  "<p>Görselleştirilecek duygu verisi bulunamadı.</p>".

(** [dict.get(key, 0)] *)
Definition get0 (emotion_data : gmap string pynum) (key : string) : pynum :=
  default (PInt 0) (emotion_data !! key).

(** ** The absolute chart: [create_emotion_charts_html] *)

Definition base_height : Z := 250.
Definition svg_width : Z := 600.
Definition padding : Z := 40.
Definition bar_spacing : Z := 15.
Definition label_offset : Z := 5.

(** One pass of the loop over [emotion_keys_ordered] that fills
    [emotion_values]: [None] when the key is not in the dict. *)
Definition emotion_entry (emotion_data : gmap string pynum) (key : string)
  : option entry :=
  if decide (is_Some (emotion_data !! key)) then
    Some (Entry (default "Bilinmeyen" (labels_map !! key))
                (get0 emotion_data key))
  else None.

Definition emotion_values (emotion_data : gmap string pynum) : list entry :=
  omap (emotion_entry emotion_data) emotion_keys_ordered.

(** [max_value] after the lower bound of 5 is applied. *)
Definition effective_max (e : entry) (es : list entry) : pynum :=
  let max_value := py_max (value e) (value <$> es) in
  if py_lt max_value (PInt 5) then PInt 5 else max_value.

Definition chart_height (max_value : pynum) : result Z :=
  let? r := py_truediv max_value (PInt 100) in
  Ok (py_int (py_mul r (PInt base_height)) + 80).

Definition chart_bar_width (num_bars : Z) : result pynum :=
  let? w := py_truediv
              (PInt (svg_width - 2 * padding - (num_bars - 1) * bar_spacing))
              (PInt num_bars) in
  Ok (if py_le w (PInt 0) then PInt 20 else w).

(** The body of [for i in range(5)]: a label and a tick on the y axis. *)
Definition axis_tick (max_value : pynum) (svg_height : Z) (i : Z)
  : result (list svg_element) :=
  let percent := i * 25 in
  let? q := py_truediv (PInt percent) max_value in
  let y_val := py_sub (PInt (svg_height - padding))
                      (py_mul q (PInt (svg_height - 2 * padding))) in
  Ok [ SvgText (PInt (padding - 10)) (py_add y_val (PInt 5)) 10 "end" "#555"
         None (pretty percent +:+ "%");
       SvgLine (PInt padding) y_val (PInt (padding + 5)) y_val "0.5" ].

(** The body of [for i, emotion in enumerate(emotion_values)]. *)
Definition emotion_bar (max_value : pynum) (svg_height : Z) (bar_width : pynum)
    (ie : Z * entry) : result (list svg_element) :=
  let '(i, emotion) := ie in
  let x := py_add (PInt padding)
                  (py_mul (PInt i) (py_add bar_width (PInt bar_spacing))) in
  let? q := py_truediv (value emotion) max_value in
  let bar_height := py_mul q (PInt (svg_height - 2 * padding)) in
  let y := py_sub (PInt (svg_height - padding)) bar_height in
  let fill_color := default "#cccccc" (colors !! name emotion) in
  let text_y := py_sub y (PInt label_offset) in
  let text_y := if py_lt text_y (PInt 15) then py_add y (PInt 15) else text_y in
  let text_fill := "#333" in
  let? half := py_truediv bar_width (PInt 2) in
  Ok [ SvgRect x y bar_width bar_height fill_color;
       SvgText (py_add x half) text_y 12 "middle" text_fill (Some "bold")
         (py_format false 1 (value emotion) +:+ "%");
       SvgText (py_add x half) (PInt (svg_height - padding + 20)) 11 "middle"
         "#555" None (name emotion) ].

(** What [axis_tick] and [emotion_bar] append when their divisions do not
    raise. *)
Definition axis_tick_elements (max_value : pynum) (svg_height : Z) (i : Z)
  : list svg_element :=
  let percent := i * 25 in
  let y_val := py_sub (PInt (svg_height - padding))
                      (py_mul (py_quot (PInt percent) max_value)
                              (PInt (svg_height - 2 * padding))) in
  [ SvgText (PInt (padding - 10)) (py_add y_val (PInt 5)) 10 "end" "#555"
      None (pretty percent +:+ "%");
    SvgLine (PInt padding) y_val (PInt (padding + 5)) y_val "0.5" ].

Definition emotion_bar_elements (max_value : pynum) (svg_height : Z)
    (bar_width : pynum) (ie : Z * entry) : list svg_element :=
  let x := py_add (PInt padding)
                  (py_mul (PInt ie.1) (py_add bar_width (PInt bar_spacing))) in
  let bar_height := py_mul (py_quot (value ie.2) max_value)
                           (PInt (svg_height - 2 * padding)) in
  let y := py_sub (PInt (svg_height - padding)) bar_height in
  let text_y := py_sub y (PInt label_offset) in
  let text_y := if py_lt text_y (PInt 15) then py_add y (PInt 15) else text_y in
  let half := py_quot bar_width (PInt 2) in
  [ SvgRect x y bar_width bar_height (default "#cccccc" (colors !! name ie.2));
    SvgText (py_add x half) text_y 12 "middle" "#333" (Some "bold")
      (py_format false 1 (value ie.2) +:+ "%");
    SvgText (py_add x half) (PInt (svg_height - padding + 20)) 11 "middle"
      "#555" None (name ie.2) ].

(** [svg_height] and [svg_elements] for a non-empty [emotion_values]. *)
Definition emotion_chart_elements (e : entry) (es : list entry)
  : result (Z * list svg_element) :=
  let max_value := effective_max e es in
  let? svg_height := chart_height max_value in
  let num_bars := Z.of_nat (length (e :: es)) in
  let? bar_width := chart_bar_width num_bars in
  let? title_x := py_truediv (PInt svg_width) (PInt 2) in
  let title := SvgText title_x (PInt 25) 12 "middle" "#333" (Some "400")
                 "Aday Duygu Analizi" in
  let axis := SvgLine (PInt padding) (PInt (svg_height - padding))
                (PInt (svg_width - padding)) (PInt (svg_height - padding)) "1" in
  let? ticks := for_each (axis_tick max_value svg_height) [0; 1; 2; 3; 4] in
  let? bars := for_each (emotion_bar max_value svg_height bar_width)
                 (enumerate (e :: es)) in
  Ok (svg_height, title :: axis :: ticks ++ bars).

Definition emotion_chart_markup (svg_height : Z) (els : list svg_element)
  : string :=
  nl +:+ "    <div style=" +:+ dq
  +:+ "text-align: center; margin: 20px auto; opacity: 0.6;" +:+ dq +:+ ">"
  +:+ nl +:+ "        <svg" +:+ attr "width" (pretty svg_width)
  +:+ attr "height" (pretty svg_height)
  +:+ attr "viewBox" ("0 0 " +:+ pretty svg_width +:+ " " +:+ pretty svg_height)
  +:+ attr "style"
        "background-color: #fcfcfc; border: 1px solid #eee; border-radius: 8px;"
  +:+ ">" +:+ nl +:+ "            " +:+ join_elements els
  +:+ nl +:+ "        </svg>" +:+ nl +:+ "    </div>" +:+ nl +:+ "    ".

Definition create_emotion_charts_html (emotion_data : gmap string pynum)
  : result string :=
  match emotion_values emotion_data with
  | [] => Ok no_data_message
  | e :: es =>
      let? (svg_height, svg_elements) := emotion_chart_elements e es in
      Ok (emotion_chart_markup svg_height svg_elements)
  end.


(** The emotion keys that are in the dict, in canonical order. *)
Definition present_keys (emotion_data : gmap string pynum) : list string :=
  List.filter (fun key => bool_decide (is_Some (emotion_data !! key)))
    emotion_keys_ordered.

(** ** The differential chart: [create_emotion_charts_html_2] *)

(** [labels_map[key]] *)
Definition label_of (key : string) : result string :=
  match labels_map !! key with
  | Some label => Ok label
  | None => Raise (KeyError key)
  end.

(** The body of [for key, avg_key in zip(emotion_keys, avg_keys)]. *)
Definition diff_entry (emotion_data : gmap string pynum)
    (keys : string * string) : result (list entry) :=
  let '(key, avg_key) := keys in
  let? label := label_of key in
  let val := get0 emotion_data key in
  let avg := get0 emotion_data avg_key in
  let diff := py_round2 (py_sub val avg) in
  Ok [Entry label diff].

Definition diffs (emotion_data : gmap string pynum) : result (list entry) :=
  for_each (diff_entry emotion_data) (zip emotion_keys_ordered avg_keys).

(** [max_abs] after the lower bound of 5 is applied. *)
Definition effective_max_abs (d : entry) (ds : list entry) : pynum :=
  let max_abs := py_max (py_abs (value d)) (py_abs <$> (value <$> ds)) in
  if py_lt max_abs (PInt 5) then PInt 5 else max_abs.

(** The body of [for perc in [-max_abs, 0, max_abs]]. *)
Definition diff_tick (max_abs panel baseline_y perc : pynum)
  : result (list svg_element) :=
  let? q := py_truediv perc max_abs in
  let pos := py_sub baseline_y (py_mul q panel) in
  let label := py_format false 0 perc +:+ "%" in
  Ok [ SvgText (PInt (padding - 10)) (py_add pos (PInt 4)) 10 "end" "#555"
         None label;
       SvgLine (PInt padding) pos (PInt (padding + 5)) pos "0.5" ].

(** The body of [for i, item in enumerate(diffs)]. *)
Definition diff_bar (max_abs panel baseline_y bar_width : pynum)
    (ie : Z * entry) : result (list svg_element) :=
  let '(i, item) := ie in
  let x := py_add (PInt padding)
                  (py_mul (PInt i) (py_add bar_width (PInt bar_spacing))) in
  let val := value item in
  let? q := py_truediv (py_abs val) max_abs in
  let height := py_mul q panel in
  let y := if py_ge val (PInt 0) then py_sub baseline_y height else baseline_y in
  let color := default "#ccc" (colors !! name item) in
  let txt_y := if py_ge val (PInt 0) then py_sub y (PInt 5)
               else py_add (py_add y height) (PInt 15) in
  let? half := py_truediv bar_width (PInt 2) in
  Ok [ SvgRect x y bar_width height color;
       SvgText (py_add x half) txt_y 12 "middle" "#333" (Some "bold")
         (py_format true 1 val +:+ "%");
       SvgText (py_add x half) (py_add (py_add baseline_y panel) (PInt 20)) 11
         "middle" "#555" None (name item) ].

(** What [diff_tick] and [diff_bar] append when their divisions do not
    raise. *)
Definition diff_tick_elements (max_abs panel baseline_y perc : pynum)
  : list svg_element :=
  let pos := py_sub baseline_y (py_mul (py_quot perc max_abs) panel) in
  [ SvgText (PInt (padding - 10)) (py_add pos (PInt 4)) 10 "end" "#555"
      None (py_format false 0 perc +:+ "%");
    SvgLine (PInt padding) pos (PInt (padding + 5)) pos "0.5" ].

Definition diff_bar_elements (max_abs panel baseline_y bar_width : pynum)
    (ie : Z * entry) : list svg_element :=
  let x := py_add (PInt padding)
                  (py_mul (PInt ie.1) (py_add bar_width (PInt bar_spacing))) in
  let val := value ie.2 in
  let height := py_mul (py_quot (py_abs val) max_abs) panel in
  let y := if py_ge val (PInt 0) then py_sub baseline_y height else baseline_y in
  let txt_y := if py_ge val (PInt 0) then py_sub y (PInt 5)
               else py_add (py_add y height) (PInt 15) in
  let half := py_quot bar_width (PInt 2) in
  [ SvgRect x y bar_width height (default "#ccc" (colors !! name ie.2));
    SvgText (py_add x half) txt_y 12 "middle" "#333" (Some "bold")
      (py_format true 1 val +:+ "%");
    SvgText (py_add x half) (py_add (py_add baseline_y panel) (PInt 20)) 11
      "middle" "#555" None (name ie.2) ].

(** [svg_height] and [svg_elems] for a non-empty [diffs]. *)
Definition diff_chart_elements (d : entry) (ds : list entry)
  : result (Z * list svg_element) :=
  let max_abs := effective_max_abs d ds in
  let? r := py_truediv max_abs (PInt 100) in
  let panel := py_mul r (PInt base_height) in
  let svg_height :=
    py_int (py_add (py_mul panel (PInt 2)) (PInt (padding * 2))) in
  let num_bars := Z.of_nat (length (d :: ds)) in
  let? bar_width :=
    py_truediv (PInt (svg_width - 2 * padding - (num_bars - 1) * bar_spacing))
               (PInt num_bars) in
  let baseline_y := py_add (PInt padding) panel in
  let? title_x := py_truediv (PInt svg_width) (PInt 2) in
  let title := SvgText title_x (PInt 25) 12 "middle" "#333" (Some "400")
                 "Aday Duygularının Ortalamadan Farkı" in
  let zero_line := SvgLine (PInt padding) baseline_y
                     (PInt (svg_width - padding)) baseline_y "1" in
  let? ticks := for_each (diff_tick max_abs panel baseline_y)
                  [py_neg max_abs; PInt 0; max_abs] in
  let? bars := for_each (diff_bar max_abs panel baseline_y bar_width)
                 (enumerate (d :: ds)) in
  Ok (svg_height, title :: zero_line :: ticks ++ bars).

Definition diff_chart_markup (svg_height : Z) (els : list svg_element)
  : string :=
  "<div style=" +:+ dq
  +:+ "text-align:center;margin:20px auto;opacity:0.6;" +:+ dq +:+ ">"
  +:+ "<svg" +:+ attr "width" (pretty svg_width)
  +:+ attr "height" (pretty svg_height)
  +:+ attr "viewBox" ("0 0 " +:+ pretty svg_width +:+ " " +:+ pretty svg_height)
  +:+ attr "style"
        "background-color:#fcfcfc;border:1px solid #eee;border-radius:8px;"
  +:+ ">" +:+ join_elements els +:+ "</svg></div>".

Definition create_emotion_charts_html_2 (emotion_data : gmap string pynum)
  : result string :=
  let? diffs := diffs emotion_data in
  match diffs with
  | [] => Ok no_data_message
  | d :: ds =>
      let? (svg_height, svg_elems) := diff_chart_elements d ds in
      Ok (diff_chart_markup svg_height svg_elems)
  end.

End Model.

(** ** The document tree

    What BeautifulSoup's [html.parser] tree offers to the endpoint: tags with
    attributes and contents, and text nodes.  Searches visit descendants in
    document order. *)

Inductive node : Type :=
| Tag (tag_name : string) (attrs : gmap string string) (contents : list node)
| NavigableString (text : string).

Section Traversal.

Context (p : node -> bool).

Section Lists.

Context (find : node -> option node).

Fixpoint find_in (l : list node) : option node :=
  match l with
  | [] => None
  | c :: l' =>
      if p c then Some c
      else match find c with
           | Some hit => Some hit
           | None => find_in l'
           end
  end.

Context (f : node -> list node) (edit : node -> option node).

Fixpoint edit_in (l : list node) : option (list node) :=
  match l with
  | [] => None
  | c :: l' =>
      if p c then Some (f c ++ l')
      else match edit c with
           | Some c' => Some (c' :: l')
           | None => cons c <$> edit_in l'
           end
  end.

End Lists.

(** [soup.find(...)]: the first descendant that satisfies [p]. *)
Fixpoint find_first (n : node) : option node :=
  match n with
  | Tag _ _ contents => find_in find_first contents
  | NavigableString _ => None
  end.

(** The tree in which the node [find_first] returns is replaced by the nodes
    [f] makes of it; [None] when there is no such node. *)
Fixpoint edit_found (f : node -> list node) (n : node) : option node :=
  match n with
  | Tag tag_name attrs contents =>
      Tag tag_name attrs <$> edit_in f (edit_found f) contents
  | NavigableString _ => None
  end.

(** A mutation of the node [find_first] returns; nothing happens when the
    search returned [None]. *)
Definition edit_first (f : node -> list node) (n : node) : node :=
  default n (edit_found f n).

End Traversal.

Section Descendant.

(** [soup.select_one("A B")]: the first node that satisfies [p] below a node
    that satisfies [q]. *)
Context (q p : node -> bool) (f : node -> list node).

Section Lists.

Context (edit : bool -> node -> option node).

Fixpoint edit_under_in (inside : bool) (l : list node) : option (list node) :=
  match l with
  | [] => None
  | c :: l' =>
      if inside && p c then Some (f c ++ l')
      else match edit (inside || q c) c with
           | Some c' => Some (c' :: l')
           | None => cons c <$> edit_under_in inside l'
           end
  end.

End Lists.

Fixpoint edit_under_found (inside : bool) (n : node) : option node :=
  match n with
  | Tag tag_name attrs contents =>
      Tag tag_name attrs <$> edit_under_in edit_under_found inside contents
  | NavigableString _ => None
  end.

Definition edit_first_under (n : node) : node :=
  default n (edit_under_found false n).

End Descendant.

(** [find(id=...)] *)
Definition has_id (id : string) (n : node) : bool :=
  match n with
  | Tag _ attrs _ => bool_decide (attrs !! "id" = Some id)
  | NavigableString _ => false
  end.

Definition is_tag (tag : string) (n : node) : bool :=
  match n with
  | Tag tag_name _ _ => bool_decide (tag_name = tag)
  | NavigableString _ => false
  end.

(** [find(text=...)] with a string: the whole text of the node is compared. *)
Definition has_text (s : string) (n : node) : bool :=
  match n with
  | Tag _ _ _ => false
  | NavigableString text => bool_decide (text = s)
  end.

(** [tag.clear()] followed by [tag.append(...)] of a parsed fragment, whose
    nodes become the contents of the tag. *)
Definition with_contents (new_contents : list node) (n : node) : node :=
  match n with
  | Tag tag_name attrs _ => Tag tag_name attrs new_contents
  | NavigableString _ => n
  end.

Definition replace_contents (new_contents : list node) (n : node) : list node :=
  [with_contents new_contents n].

(** [tag[key] = v] *)
Definition set_attr (key v : string) (n : node) : list node :=
  match n with
  | Tag tag_name attrs contents => [Tag tag_name (<[key := v]> attrs) contents]
  | NavigableString _ => [n]
  end.

(** [tag.append(child)] *)
Definition append_child (child : node) (n : node) : list node :=
  match n with
  | Tag tag_name attrs contents => [Tag tag_name attrs (contents ++ [child])]
  | NavigableString _ => [n]
  end.

(** [node.extract()] *)
Definition extract (n : node) : list node := [].

(** The root object [BeautifulSoup(markup, "html.parser")] of parsed nodes. *)
Definition BeautifulSoup (parsed : list node) : node := Tag "[document]" ∅ parsed.

(** Whether [s] occurs in the text of some text node of the tree. *)
Fixpoint mentions (s : string) (n : node) : bool :=
  match n with
  | Tag _ _ contents => existsb (mentions s) contents
  | NavigableString text => bool_decide (is_Some (String.index 0 s text))
  end.

(** The text nodes below a node, in document order ([soup.strings]). *)
Fixpoint strings (n : node) : list string :=
  match n with
  | Tag _ _ contents => flat_map strings contents
  | NavigableString text => [text]
  end.

(** The tags of a tree in document order, the root first, with their
    attributes. *)
Fixpoint tags (n : node) : list (string * gmap string string) :=
  match n with
  | Tag tag_name attrs contents => (tag_name, attrs) :: flat_map tags contents
  | NavigableString _ => []
  end.

(** A list without the first occurrence of [s]. *)
Fixpoint remove_first (s : string) (l : list string) : list string :=
  match l with
  | [] => []
  | x :: l' => if decide (x = s) then l' else x :: remove_first s l'
  end.

(** ** The endpoint: [generate_report] *)

Section Endpoint.

Context {float : Type} `{PyFloat float}.

(** A cell of the table [pd.read_csv] returns: a number or a text. *)
Inductive cell : Type :=
| CNum (x : @pynum float)
| CStr (s : string).

(** The table: its column labels and its rows, a cell for every column. *)
Record DataFrame : Type := {
  columns : list string;
  rows : list (gmap string cell)
}.

(** A value of the dict [current_row_data]. *)
Inductive row_value : Type :=
| Scalar (c : cell)
| QaList (qa : list (cell * cell)).

Record Response : Type := {
  media_type : string;
  content_disposition : string;
  body : string
}.

(** What the endpoint calls and this model leaves open: [pd.read_csv] on
    the uploaded bytes; [generated_document], the answer of the language
    model to the prompt that [format_qa_section] and [generate_llm_prompt]
    build from the row, stripped of its code fence; BeautifulSoup's parser
    and [prettify]; [create_pdf_from_html] (WeasyPrint); the result of
    [get_image_base64("logo.png")], empty when the file cannot be read;
    [int] on a text; [str] on an exception; [urllib.parse.quote].  The debug
    copy of the document written to disk is not modelled. *)
Context (read_csv : string -> result DataFrame)
        (generated_document : gmap string row_value -> result string)
        (html_parser : string -> list node)
        (prettify : node -> string)
        (create_pdf_from_html : string -> result string)
        (logo_base64 : string)
        (int_of_text : string -> result Z)
        (str_exn : exn -> string)
        (url_quote : string -> string).

Definition required_columns : list string :=
  [ "kisi_adi"; "mulakat_adi"; "llm_skoru";
    "duygu_mutlu_%"; "duygu_kizgin_%"; "duygu_igrenme_%"; "duygu_korku_%";
    "duygu_uzgun_%"; "duygu_saskin_%"; "duygu_dogal_%";
    "ekran_disi_sure_sn"; "ekran_disi_sayisi"; "soru"; "cevap"; "tip" ].

(** [col in df.columns] *)
Definition has_column (df : DataFrame) (col : string) : bool :=
  bool_decide (col ∈ columns df).

Definition missing_cols (df : DataFrame) : list string :=
  List.filter (fun col => negb (has_column df col)) required_columns.

(** [df.empty] *)
Definition df_empty (df : DataFrame) : bool :=
  match columns df, rows df with
  | _ :: _, _ :: _ => false
  | _, _ => true
  end.

(** [df.iloc[0]] *)
Definition iloc0 (df : DataFrame) : result (gmap string cell) :=
  match rows df with
  | row :: _ => Ok row
  | [] => Raise IndexError
  end.

(** [row[key]] *)
Definition getitem (row : gmap string cell) (key : string) : result cell :=
  match row !! key with
  | Some c => Ok c
  | None => Raise (KeyError key)
  end.

(** How the dict literal of [current_row_data] reads a column. *)
Inductive conversion : Type :=
| AsIs
| Round2
| ToInt.

Definition convert (how : conversion) (c : cell) : result cell :=
  match how, c with
  | AsIs, _ => Ok c
  | Round2, CNum x => Ok (CNum (py_round2 x))
  | Round2, CStr _ => Raise (TypeError "round")
  | ToInt, CNum x => Ok (CNum (PInt (py_int x)))
  | ToInt, CStr s => let? z := int_of_text s in Ok (CNum (PInt z))
  end.

(** The entries of the dict literal, in the order they are evaluated. *)
Inductive row_entry : Type :=
| Column (key : string) (how : conversion)
| SoruCevap.

Definition row_entries : list row_entry :=
  [ Column "kisi_adi" AsIs;
    Column "mulakat_adi" AsIs;
    Column "llm_skoru" Round2;
    Column "duygu_mutlu_%" Round2;
    Column "avg_duygu_mutlu_%" Round2;
    Column "duygu_kizgin_%" Round2;
    Column "avg_duygu_kizgin_%" Round2;
    Column "duygu_igrenme_%" Round2;
    Column "avg_duygu_igrenme_%" Round2;
    Column "duygu_korku_%" Round2;
    Column "avg_duygu_korku_%" Round2;
    Column "duygu_uzgun_%" Round2;
    Column "avg_duygu_uzgun_%" Round2;
    Column "duygu_saskin_%" Round2;
    Column "avg_duygu_saskin_%" Round2;
    Column "duygu_dogal_%" Round2;
    Column "avg_duygu_dogal_%" Round2;
    Column "ekran_disi_sure_sn" Round2;
    Column "avg_ekran_disi_sure_sn" Round2;
    Column "ekran_disi_sayisi" ToInt;
    Column "avg_ekran_disi_sayisi" ToInt;
    SoruCevap;
    Column "tip" ToInt;
    Column "avg_llm_skoru" Round2 ].

Definition read_entry (row : gmap string cell) (e : row_entry)
  : result (string * row_value) :=
  match e with
  | Column key how =>
      let? c := getitem row key in
      let? v := convert how c in
      Ok (key, Scalar v)
  | SoruCevap =>
      let? soru := getitem row "soru" in
      let? cevap := getitem row "cevap" in
      Ok ("soru_cevap", QaList [(soru, cevap)])
  end.

Fixpoint read_entries (row : gmap string cell) (es : list row_entry)
    (acc : gmap string row_value) : result (gmap string row_value) :=
  match es with
  | [] => Ok acc
  | e :: es' =>
      let? kv := read_entry row e in
      read_entries row es' (<[kv.1 := kv.2]> acc)
  end.

(** The dict [current_row_data] of the first row. *)
Definition build_row_data (row : gmap string cell)
  : result (gmap string row_value) :=
  read_entries row row_entries ∅.

(** The numbers of [current_row_data], which is all the chart renderers
    read of it: they look up the fourteen emotion keys only, and
    [build_row_data] stores a number under each of them. *)
Definition numbers (current_row_data : gmap string row_value)
  : gmap string pynum :=
  omap (fun v => match v with
                 | Scalar (CNum x) => Some x
                 | _ => None
                 end) current_row_data.

(** [current_row_data[key]] *)
Definition row_item (current_row_data : gmap string row_value) (key : string)
  : result row_value :=
  match current_row_data !! key with
  | Some v => Ok v
  | None => Raise (KeyError key)
  end.

(** [v == 1] *)
Definition equals_one (v : row_value) : bool :=
  match v with
  | Scalar (CNum (PInt z)) => z =? 1
  | Scalar (CNum (PFloat x)) => feqb x (of_Z 1)
  | _ => false
  end.

(** The text of [{v}] in an f-string. *)
Definition str_value (v : row_value) : string :=
  match v with
  | Scalar (CNum x) => py_str x
  | Scalar (CStr s) => s
  | QaList _ => ""
  end.

Definition chart_placeholder_id : string := "bar-chart-placeholder".

Definition uygunluk_token : string := "{{uygunluk_degerlendirmesi_bolumu}}".

(** The chart step: both charts replace the contents of the node with id
    [bar-chart-placeholder], when there is one. *)
Definition insert_charts (current_row_data : gmap string row_value)
    (soup : node) : result node :=
  match find_first (has_id chart_placeholder_id) soup with
  | Some _ =>
      let? abs_chart_html :=
        create_emotion_charts_html (numbers current_row_data) in
      let? diff_chart_html :=
        create_emotion_charts_html_2 (numbers current_row_data) in
      Ok (edit_first (has_id chart_placeholder_id)
            (replace_contents (html_parser (abs_chart_html +:+ diff_chart_html)))
            soup)
  | None => Ok soup
  end.

(** The logo step: the header image and the watermark. *)
Definition insert_logo (soup : node) : node :=
  match logo_base64 with
  | EmptyString => soup
  | String _ _ =>
      let logo_src := "data:image/png;base64," +:+ logo_base64 in
      let soup :=
        edit_first_under (has_id "header_logo") (is_tag "img")
          (set_attr "src" logo_src) soup in
      let img_tag :=
        Tag "img" (<["src" := logo_src]>
                     (<["alt" := "Deepwork Logo Filigranı"]> ∅)) [] in
      edit_first (has_id "watermark-placeholder") (append_child img_tag) soup
  end.

(** The step for [tip == 1]: the text node that is the placeholder of the
    suitability section is taken out of the tree. *)
Definition remove_uygunluk (current_row_data : gmap string row_value)
    (soup : node) : result node :=
  let? tip := row_item current_row_data "tip" in
  if equals_one tip then
    Ok (edit_first (has_text uygunluk_token) extract soup)
  else Ok soup.

(** The steps between parsing the generated document and [prettify]. *)
Definition assemble (current_row_data : gmap string row_value) (soup : node)
  : result node :=
  let? soup := insert_charts current_row_data soup in
  let soup := insert_logo soup in
  remove_uygunluk current_row_data soup.

(** The body of the [try] block. *)
Definition report_body (file_content : string) : result Response :=
  let? df := read_csv file_content in
  if negb (forallb (has_column df) required_columns) then
    Raise (HTTPException 400
             ("CSV dosyasında eksik sütunlar var: "
              +:+ String.concat ", " (missing_cols df)))
  else if df_empty df then
    Raise (HTTPException 400 "CSV dosyası veri içermiyor.")
  else
    let? row := iloc0 df in
    let? current_row_data := build_row_data row in
    let? raw_html_content := generated_document current_row_data in
    let soup := BeautifulSoup (html_parser raw_html_content) in
    let? soup := assemble current_row_data soup in
    let final_html := prettify soup in
    let? pdf_bytes := create_pdf_from_html final_html in
    let? kisi_adi := row_item current_row_data "kisi_adi" in
    let? mulakat_adi := row_item current_row_data "mulakat_adi" in
    let filename :=
      str_value kisi_adi +:+ "_" +:+ str_value mulakat_adi +:+ "_Rapor.pdf" in
    Ok {| media_type := "application/pdf";
          content_disposition :=
            "attachment; filename*=UTF-8''" +:+ url_quote filename;
          body := pdf_bytes |}.

(** [filename.endswith(".csv")] *)
Definition ends_with (s suffix : string) : bool :=
  String.prefix (String.rev suffix) (String.rev s).

(** The endpoint.  The [except] clauses of the [try] block see every
    exception raised in it, [HTTPException] included, which is an
    [Exception] as well. *)
Definition generate_report (filename : string) (file_content : string)
  : result Response :=
  if negb (ends_with filename ".csv") then
    Raise (HTTPException 400
             "Hatalı dosya formatı. Lütfen bir .csv dosyası yükleyin.")
  else
    match report_body file_content with
    | Ok response => Ok response
    | Raise EmptyDataError =>
        Raise (HTTPException 400 "Yüklenen CSV dosyası boş.")
    | Raise e =>
        Raise (HTTPException 500
                 ("Rapor oluşturulurken sunucuda bir hata oluştu: "
                  +:+ str_exn e))
    end.

End Endpoint.

(** ** The prompt and the answer of the language model

    Lines 760 to 770 of the endpoint: [format_qa_section],
    [generate_llm_prompt], the call of the language model and the removal of
    the code fence around its answer. *)

Section Prompt.

Context {float : Type} `{PyFloat float}.

(** The columns an entry of the dict literal of [current_row_data] reads. *)
Definition entry_columns (e : row_entry) : list string :=
  match e with
  | Column key _ => [key]
  | SoruCevap => ["soru"; "cevap"]
  end.

(** The key an entry of the dict literal writes. *)
Definition entry_key (e : row_entry) : string :=
  match e with
  | Column key _ => key
  | SoruCevap => "soru_cevap"
  end.

(** The columns the endpoint reads of the first row: the fifteen checked
    ones and the ten averages. *)
Definition columns_read : list string :=
  required_columns ++ avg_keys
  ++ ["avg_llm_skoru"; "avg_ekran_disi_sure_sn"; "avg_ekran_disi_sayisi"].


(** [UnboundLocalError], which Python raises when a local variable is read
    before any assignment.  [exn] has no constructor of its own for it: it is
    carried by [CollaboratorError], with the name of the variable. *)
Definition UnboundLocalError (variable : string) : exn :=
  CollaboratorError ("UnboundLocalError: " +:+ variable).

(** The text of [{row_data[key]}] in an f-string, for the scalars of the
    dict; the list of questions is read by [format_qa_section] only. *)
Definition field (row_data : gmap string (@row_value float)) (key : string)
  : result string :=
  let? v := row_item row_data key in
  Ok (str_value v).

(** [v == 0] *)
Definition equals_zero (v : @row_value float) : bool :=
  match v with
  | Scalar (CNum (PInt z)) => z =? 0
  | Scalar (CNum (PFloat x)) => feqb x (of_Z 0)
  | _ => false
  end.

(** The f-string [format_qa_section] appends for an item. *)
Definition qa_item
    (soru cevap : string) : string :=
  String.concat dq
    [ "
        <div class=";
      "qa-item";
      " style=";
      "margin-bottom: 15px; padding: 12px; border: 1px solid #e0e0e0; border-radius: 8px;";
      ">
            <p style=";
      "font-weight: bold; color: #34495e;";
      ">Soru: " ]
  +:+ soru
  +:+ String.concat dq
    [ "</p>
            <p style=";
      "color: #555; margin-top: 5px;";
      ">Cevap: " ]
  +:+ cevap
  +:+ "</p>
        </div>
        ".

(** [format_qa_section]: the blocks of the items, in order.  A list is what
    the endpoint passes; on a text the loop runs over its characters, whose
    subscript raises, and a number cannot be iterated. *)
Definition format_qa_section (qa_list : @row_value float) : result string :=
  match qa_list with
  | QaList items =>
      Ok (foldl (fun html item =>
                   html +:+ qa_item (str_value (Scalar item.1))
                                    (str_value (Scalar item.2)))
                "" items)
  | Scalar (CStr EmptyString) => Ok ""
  | Scalar (CStr (String _ _)) =>
      Raise (TypeError "string indices must be integers")
  | Scalar (CNum _) => Raise (TypeError "object is not iterable")
  end.

(** The f-string [html_template], with the values of its three holes. *)
Definition html_template
    (llm_skoru kisi_adi formatted_qa_html : string) : string :=
  String.concat dq
    [ "
<!DOCTYPE html>
<html>
<head>
    <meta charset=";
      "UTF-8";
      ">
    <style>
        @font-face {
            font-family: ";
      "IBMPlexSans";
      ";
            src: url(";
      "fonts/IBMPlexSans-Regular.ttf";
      ");
            font-weight: normal;
            font-style: normal;
        }
        @font-face {
            font-family: ";
      "IBMPlexSans";
      ";
            src: url(";
      "fonts/IBMPlexSans-Medium.ttf";
      ");
            font-weight: 500;
            font-style: normal;
        }
        @font-face {
            font-family: ";
      "IBMPlexSans";
      ";
            src: url(";
      "fonts/IBMPlexSans-Bold.ttf";
      ");
            font-weight: bold;
            font-style: normal;
        }
        body {
            font-family: ";
      "IBMPlexSans";
      ", sans-serif;
            line-height: 1.7;
            margin: 25px;
            color: #333;
            background-color: #ffffff;
            font-size: 10pt;
            position: relative;
            margin-bottom: 40px;
            width: 100vw;
        }
        h1 { 
            color: #2c3e50; 
            text-align: center; 
            border-bottom: 2px solid #3498db; 
            padding-bottom: 10px; 
            font-size: 24px; 
            font-weight: bold;
        }
        h2 { 
            color: #34495e; 
            margin-top: 35px; 
            border-bottom: 1px solid #bdc3c7; 
            padding-bottom: 8px; 
            font-size: 20px;
            font-weight: 500;
        }
        h3 { 
            color: #7f8c8d; 
            font-size: 16px; 
            margin-bottom: 15px; 
            font-weight: 500;
        }
        .section { margin-bottom: 30px; }
        #pie-chart-placeholder { width: 100%; height: auto; margin: 20px auto; text-align: center; }

        /* Filigran Resim Konteyneri */
        .watermark-image-container {
            position: fixed;
            top: 50%;
            left: 50%;
            transform: translate(-50%, -50%);
            z-index: -1;
            pointer-events: none;
            opacity: 0.05;
            width: 70%;
            max-width: 600px;
            height: auto;
            text-align: center;
        }
        .watermark-image-container img {
            width: 100%;
            height: auto;
            display: block;
            margin: 0 auto;
        }

        @page {
            margin: 70px 12.5px 70px 12.5px;
            @top-left {
                content: element(header_logo);
                vertical-align: top;
            }
            @top-right {
                content: element(header_uygunluk);
                vertical-align: top;
            }
            @bottom-center {
                content: element(footer_content);
                vertical-align: bottom;
                padding-bottom: 10px;
            }
        }    


        /* Alt bilgi stili */
        .page-footer {
            display: block;
            position: running(footer_content);
            width: 100%;
            background-color: #ffffff;
            padding: 10px 10px;
            text-align: center;
            font-size: 8px;
            color: #555;
            box-sizing: border-box;
        }
        .footer-divider {
            border-top: 0.5px solid #ccc;
            margin: 0 auto 5px auto;
            width: 90%;
        }
        .footer-company-name {
            font-weight: bold;
            margin-bottom: 2px;
        }
        .footer-contact-info {
            font-size: 7px;
            line-height: 1.2;
            white-space: nowrap;
            display: flex;
            justify-content: center;
            gap: 10px;
        }

        /* LOGO HEADER - Sol üst */
        .page-header-logo {
            margin-top: 15px;
            margin-left: 15px;
            position: running(header_logo);
            text-align: left;
        }
        .page-header-logo img {
            width: 40px;
            height: auto;
            display: inline-block;
        }

        /* POZISYONA UYGUNLUK - Sağ üst köşe */
        .page-header-uygunluk {
            margin-top: 15px;
            margin-right: 15px;
            position: running(header_uygunluk);
            text-align: right;
            font-size: 12px;
            color: #2c3e50;
            font-weight: bold;
            line-height: 1.2;
            min-width: 180px;
            background: linear-gradient(135deg, #f8f9fa 0%, #e9ecef 100%);
            border: 2px solid #27ae60;
            border-radius: 8px;
            padding: 8px 12px;
            box-shadow: 0 2px 4px rgba(0,0,0,0.1);
        }
        
        .page-header-uygunluk .percentage {
            font-size: 16px;
            color: #27ae60;
            font-weight: bold;
            display: inline-block;
            margin-left: 5px;
        }

        .page-header-uygunluk .info-item {
            margin-bottom: 2px;
        }
        .page-header-uygunluk .info-link {
            text-decoration: none;
            color: #223;
            font-weight: bold;
        }
        .page-header-uygunluk .icon {
            font-size: 13px;
            margin-right: 4px;
            vertical-align: middle;
        }
    </style>
</head>
<body>
    <!-- Logo header elementi -->
    <div class=";
      "page-header-logo";
      " id=";
      "header_logo";
      ">
        <img src=";
      "{{logo_src}}";
      " alt=";
      "Logo";
      " />
    </div>
    
    <!-- Sağ üst köşe: pozisyona uygunluk bilgisi -->
    <div class=";
      "page-header-uygunluk";
      " id=";
      "header_uygunluk";
      ">
        Pozisyona Uygunluk: <span class=";
      "percentage";
      ">%" ]
  +:+ llm_skoru
  +:+ String.concat dq
    [ "</span>
    </div>

    <!-- Alt bilgi elementi -->
    <div class=";
      "page-footer";
      ">
        <div class=";
      "footer-divider";
      "></div>
        <div class=";
      "footer-company-name";
      ">DeepWork Bilişim Teknolojileri A.Ş.</div>
        <div class=";
      "footer-contact-info";
      ">
            <span>info@hrai.com.tr</span>
            <span>-</span>
            <span>İstanbul Medeniyet Üniversitesi Kuzey Kampüsü Medeniyet Teknopark Kuluçka Merkezi Üsküdar/İstanbul</span>
            <span>-</span>
            <span>+90 553 808 32 77</span>
        </div>
    </div>
    
    <!-- Filigran Resim Konteyneri -->
    <div class=";
      "watermark-image-container";
      " id=";
      "watermark-placeholder";
      ">
        <!-- Resim buraya dinamik olarak eklenecek -->
    </div>
    
    <h1>" ]
  +:+ kisi_adi
  +:+ String.concat dq
    [ " - Mülakat Değerlendirme Raporu</h1>
    
    <div class=";
      "section";
      ">
        <h2>1) Genel Bakış</h2>
        <p>{{genel_bakis_icerik}}</p>
    </div>
    
    <div class=";
      "section";
      ">
        <h2>2) Analiz</h2>
        <h3>Duygu Analizi:</h3>
        <div id=";
      "bar-chart-placeholder";
      "></div> <p>{{duygu_analizi_yorumu}}</p>

        <h3>Dikkat Analizi</h3>
        <p>{{dikkat_analizi_yorumu}}</p>
    </div>
    
    <div class=";
      "section";
      ">
        <h2>3) Genel Değerlendirme</h2>
        <p>{{genel_degerlendirme_icerik}}</p>
    </div>

    <div class=";
      "section";
      ">
        <h2>4) Sorular ve Cevaplar</h2>
        " ]
  +:+ formatted_qa_html
  +:+ String.concat dq
    [ "
    </div>
    
    <div class=";
      "section";
      ">
        <h2>5) Sonuçlar ve Öneriler</h2>
        <p>{{sonuclar_oneriler_icerik}}</p>
    </div>

    {{uygunluk_degerlendirmesi_bolumu}}
</body>
</html>
" ].

(** The f-string [prompt_instructions] of the branch [tip == 0]. *)
Definition candidate_instructions
    (kisi_adi mulakat_adi llm_skoru avg_llm_skoru mutlu kizgin igrenme korku uzgun saskin dogal ekran_disi_sure_sn ekran_disi_sayisi avg_ekran_disi_sure_sn avg_ekran_disi_sayisi html_template : string) : string :=
  "
Lütfen aşağıdaki HTML şablonunu verilen mülakat verilerine göre doldurarak eksiksiz bir HTML raporu oluştur.
Veriler:
- Aday Adı: "
  +:+ kisi_adi
  +:+ "
- Mülakat Adı: "
  +:+ mulakat_adi
  +:+ "
- LLM Skoru: "
  +:+ llm_skoru
  +:+ ", Ortalama LLM Skoru: "
  +:+ avg_llm_skoru
  +:+ "
- Duygu Analizi (%): Mutlu "
  +:+ mutlu
  +:+ ", Kızgın "
  +:+ kizgin
  +:+ ", İğrenme "
  +:+ igrenme
  +:+ ", Korku "
  +:+ korku
  +:+ ", Üzgün "
  +:+ uzgun
  +:+ ", Şaşkın "
  +:+ saskin
  +:+ ", Doğal "
  +:+ dogal
  +:+ "
- Dikkat Analizi: Ekran Dışı Süre "
  +:+ ekran_disi_sure_sn
  +:+ " sn, Ekran Dışı Bakış Sayısı "
  +:+ ekran_disi_sayisi
  +:+ ", Ortalama Ekran Dışı Süre "
  +:+ avg_ekran_disi_sure_sn
  +:+ " sn, Ortalama Ekran Dışı Bakış Sayısı "
  +:+ avg_ekran_disi_sayisi
  +:+ String.concat dq
    [ "

Doldurulacak Alanlar İçin Talimatlar:
1.  `{{genel_bakis_icerik}}`: Adayın genel performansını, iletişim becerilerini ve mülakatın genel seyrini özetleyen, en az iki paragraftan oluşan detaylı bir giriş yaz.
2.  `{{duygu_analizi_yorumu}}`: Yukarıda verilen sayısal duygu analizi verilerini yorumla. Hangi duyguların baskın olduğunu ve bunun mülakat bağlamında ne anlama gelebileceğini analiz et. Bu yorum en az iki detaylı paragraf olmalıdır. Giriş cümlesi tam olarak şu olmalı: ";
      "Görüntü ve ses analiz edilerek adayın duygu analizi yapılmıştır.";
      "
3.  `{{dikkat_analizi_yorumu}}`: Ekran dışı süre ve bakış sayısı verilerini yorumla. Bu verilerin adayın dikkat seviyesi veya odaklanması hakkında ne gibi ipuçları verdiğini açıkla. Bu yorum en az bir detaylı paragraf olmalıdır.
4.  `{{genel_degerlendirme_icerik}}`: Adayın verdiği cevapları, genel tavrını ve analiz sonuçlarını birleştirerek kapsamlı bir değerlendirme yap. Adayın güçlü ve gelişime açık yönlerini belirt. Bu bölüm en az üç paragraf olmalıdır.
5.  `{{sonuclar_oneriler_icerik}}`: Bu bölümü **sadece İnsan Kaynakları profesyonellerine yönelik** olarak yaz. Adayın pozisyona uygunluğu hakkında net bir sonuca var. İşe alım kararı için somut önerilerde bulun. Adaya yönelik bir dil kullanma. Bu bölüm en az iki paragraf olmalıdır.
6.  **YENİ TALİMAT**: `{{uygunluk_degerlendirmesi_bolumu}}`: Adayın pozisyona uygunluk yüzdesini (0-100 arası bir tam sayı) ve bu yüzdeyi destekleyen kısa bir açıklamayı HTML formatında oluştur. Yüzdeyi `" ]
  +:+ llm_skoru
  +:+ String.concat dq
    [ "` değerini dikkate alarak belirle. Örnek format:
    ```html
    <div class=";
      "section";
      ">
        <h2>6) Pozisyona Uygunluk Değerlendirmesi</h2>
        <p style=";
      "font-size: 18px; font-weight: bold; color: #27ae60;";
      ">Pozisyona Uygunluk: %85</p>
        <p>Adayın genel mülakat performansı, teknik bilgi ve iletişim becerileri, pozisyonun gerektirdiği yetkinliklerle yüksek düzeyde örtüşmektedir. Duygu analizi ve dikkat seviyesi de olumlu bir tablo çizmektedir.</p>
    </div>
    ```
    Yüzdeyi ve açıklamayı doldururken, verilen LLM Skoru'nu doğrudan uygunluk yüzdesi olarak kullanabilir veya bu skora dayanarak mantıklı bir uygunluk yüzdesi türetebilirsin. Açıklama 1-2 paragraf uzunluğunda olmalıdır.

Önemli Kurallar:
- Üretilen tüm metin **sadece Türkçe** olmalıdır.
- Raporun tonu profesyonel, resmi ve veri odaklı olmalıdır.
- Kullanıcıya yönelik hiçbir not, açıklama veya meta-yorum ekleme.
- Sadece ve sadece aşağıdaki HTML şablonunu doldurarak yanıt ver. Başka hiçbir metin ekleme.

İşte doldurman gereken şablon:
" ]
  +:+ html_template
  +:+ "
".

(** The f-string [prompt_instructions] of the branch [tip == 1]. *)
Definition customer_instructions
    (kisi_adi mulakat_adi mutlu kizgin igrenme korku uzgun saskin dogal ekran_disi_sure_sn ekran_disi_sayisi avg_ekran_disi_sure_sn avg_ekran_disi_sayisi html_template : string) : string :=
  "
Lütfen aşağıdaki HTML şablonunu verilen mülakat verilerine göre doldurarak eksiksiz bir HTML raporu oluştur.
Veriler:
- Müşteri Adı: "
  +:+ kisi_adi
  +:+ "
- Görüşme Adı: "
  +:+ mulakat_adi
  +:+ "
- Duygu Analizi (%): Mutlu "
  +:+ mutlu
  +:+ ", Kızgın "
  +:+ kizgin
  +:+ ", İğrenme "
  +:+ igrenme
  +:+ ", Korku "
  +:+ korku
  +:+ ", Üzgün "
  +:+ uzgun
  +:+ ", Şaşkın "
  +:+ saskin
  +:+ ", Doğal "
  +:+ dogal
  +:+ "
- Dikkat Analizi: Ekran Dışı Süre "
  +:+ ekran_disi_sure_sn
  +:+ " sn, Ekran Dışı Bakış Sayısı "
  +:+ ekran_disi_sayisi
  +:+ ", Ortalama Ekran Dışı Süre "
  +:+ avg_ekran_disi_sure_sn
  +:+ " sn, Ortalama Ekran Dışı Bakış Sayısı "
  +:+ avg_ekran_disi_sayisi
  +:+ String.concat dq
    [ "

Doldurulacak Alanlar İçin Talimatlar:
1.  `{{genel_bakis_icerik}}`: Müşterinin genel performansını, iletişim becerilerini ve görüşmenin genel seyrini özetleyen, en az iki paragraftan oluşan detaylı bir giriş yaz.
2.  `{{duygu_analizi_yorumu}}`: Yukarıda verilen sayısal duygu analizi verilerini yorumla. Hangi duyguların baskın olduğunu ve bunun görüşme bağlamında ne anlama gelebileceğini analiz et. Bu yorum en az iki detaylı paragraf olmalıdır. Giriş cümlesi tam olarak şu olmalı: ";
      "Görüntü ve ses analiz edilerek kişinin duygu analizi yapılmıştır.";
      "
3.  `{{dikkat_analizi_yorumu}}`: Ekran dışı süre ve bakış sayısı verilerini yorumla. Bu verilerin müşterinin dikkat seviyesi veya odaklanması hakkında ne gibi ipuçları verdiğini açıkla. Bu yorum en az bir detaylı paragraf olmalıdır.
4.  `{{genel_degerlendirme_icerik}}`: Müşterinin verdiği cevapları, genel tavrını ve analiz sonuçlarını birleştirerek kapsamlı bir değerlendirme yap. Müşterinin güçlü ve gelişime açık yönlerini belirt. Bu bölüm en az üç paragraf olmalıdır.
5.  `{{sonuclar_oneriler_icerik}}`: Bu bölümü müşteri hakkında genel bir değerlendirme olarak yaz. 1 paragraf kadar olmalı

Önemli Kurallar:
- Üretilen tüm metin **sadece Türkçe** olmalıdır.
- Raporun tonu profesyonel, resmi ve veri odaklı olmalıdır.
- Kullanıcıya yönelik hiçbir not, açıklama veya meta-yorum ekleme.
- Sadece ve sadece aşağıdaki HTML şablonunu doldurarak yanıt ver. Başka hiçbir metin ekleme.

İşte doldurman gereken şablon:
" ]
  +:+ html_template
  +:+ "
".

(** [generate_llm_prompt].  The f-strings read their keys from left to
    right; when [tip] is neither 0 nor 1 no branch binds
    [prompt_instructions] and the [return] raises. *)
Definition generate_llm_prompt (row_data : gmap string (@row_value float))
    (formatted_qa_html : string) : result string :=
  let? llm_skoru := field row_data "llm_skoru" in
  let? kisi_adi := field row_data "kisi_adi" in
  let html_template := html_template llm_skoru kisi_adi formatted_qa_html in
  let? tip := row_item row_data "tip" in
  if equals_zero tip then
    let? mulakat_adi := field row_data "mulakat_adi" in
    let? avg_llm_skoru := field row_data "avg_llm_skoru" in
    let? mutlu := field row_data "duygu_mutlu_%" in
    let? kizgin := field row_data "duygu_kizgin_%" in
    let? igrenme := field row_data "duygu_igrenme_%" in
    let? korku := field row_data "duygu_korku_%" in
    let? uzgun := field row_data "duygu_uzgun_%" in
    let? saskin := field row_data "duygu_saskin_%" in
    let? dogal := field row_data "duygu_dogal_%" in
    let? ekran_disi_sure_sn := field row_data "ekran_disi_sure_sn" in
    let? ekran_disi_sayisi := field row_data "ekran_disi_sayisi" in
    let? avg_ekran_disi_sure_sn := field row_data "avg_ekran_disi_sure_sn" in
    let? avg_ekran_disi_sayisi := field row_data "avg_ekran_disi_sayisi" in
    Ok (candidate_instructions kisi_adi mulakat_adi llm_skoru avg_llm_skoru
          mutlu kizgin igrenme korku uzgun saskin dogal ekran_disi_sure_sn
          ekran_disi_sayisi avg_ekran_disi_sure_sn avg_ekran_disi_sayisi
          html_template)
  else if equals_one tip then
    let? mulakat_adi := field row_data "mulakat_adi" in
    let? mutlu := field row_data "duygu_mutlu_%" in
    let? kizgin := field row_data "duygu_kizgin_%" in
    let? igrenme := field row_data "duygu_igrenme_%" in
    let? korku := field row_data "duygu_korku_%" in
    let? uzgun := field row_data "duygu_uzgun_%" in
    let? saskin := field row_data "duygu_saskin_%" in
    let? dogal := field row_data "duygu_dogal_%" in
    let? ekran_disi_sure_sn := field row_data "ekran_disi_sure_sn" in
    let? ekran_disi_sayisi := field row_data "ekran_disi_sayisi" in
    let? avg_ekran_disi_sure_sn := field row_data "avg_ekran_disi_sure_sn" in
    let? avg_ekran_disi_sayisi := field row_data "avg_ekran_disi_sayisi" in
    Ok (customer_instructions kisi_adi mulakat_adi mutlu kizgin igrenme korku
          uzgun saskin dogal ekran_disi_sure_sn ekran_disi_sayisi
          avg_ekran_disi_sure_sn avg_ekran_disi_sayisi html_template)
  else Raise (UnboundLocalError "prompt_instructions").

(** *** The code fence

    Python's [str] is a sequence of code points and a [string] here a
    sequence of bytes, the UTF-8 encoding of the text.  [str.strip] drops the
    code points [str.isspace] accepts: U+0009 to U+000D, U+001C to U+0020,
    U+0085, U+00A0, U+1680, U+2000 to U+200A, U+2028, U+2029, U+202F, U+205F
    and U+3000, which are the byte sequences of [space1], [space2] and
    [space3]. *)

Definition code (a : Ascii.ascii) : Z := Z.of_N (Ascii.N_of_ascii a).

Definition space1 (a : Ascii.ascii) : bool :=
  (9 <=? code a) && (code a <=? 13) || (28 <=? code a) && (code a <=? 32).

Definition space2 (a b : Ascii.ascii) : bool :=
  (code a =? 194) && ((code b =? 133) || (code b =? 160)).

Definition space3 (a b c : Ascii.ascii) : bool :=
  (code a =? 225) && (code b =? 154) && (code c =? 128)
  || (code a =? 226) && (code b =? 128)
     && ((128 <=? code c) && (code c <=? 138)
         || (code c =? 168) || (code c =? 169) || (code c =? 175))
  || (code a =? 226) && (code b =? 129) && (code c =? 159)
  || (code a =? 227) && (code b =? 128) && (code c =? 128).

(** [str.isspace] on a text, the empty one included. *)
Fixpoint all_space (s : string) : bool :=
  match s with
  | EmptyString => true
  | String a s1 =>
      if space1 a then all_space s1
      else match s1 with
           | String b s2 =>
               if space2 a b then all_space s2
               else match s2 with
                    | String c s3 => space3 a b c && all_space s3
                    | EmptyString => false
                    end
           | EmptyString => false
           end
  end.

(** [str.lstrip()] *)
Fixpoint lstrip (s : string) : string :=
  match s with
  | EmptyString => s
  | String a s1 =>
      if space1 a then lstrip s1
      else match s1 with
           | String b s2 =>
               if space2 a b then lstrip s2
               else match s2 with
                    | String c s3 => if space3 a b c then lstrip s3 else s
                    | EmptyString => s
                    end
           | EmptyString => s
           end
  end.

(** [lstrip] on a text read from its end: the first byte is the last one of
    a code point. *)
Fixpoint lstrip_reversed (s : string) : string :=
  match s with
  | EmptyString => s
  | String c s1 =>
      if space1 c then lstrip_reversed s1
      else match s1 with
           | String b s2 =>
               if space2 b c then lstrip_reversed s2
               else match s2 with
                    | String a s3 =>
                        if space3 a b c then lstrip_reversed s3 else s
                    | EmptyString => s
                    end
           | EmptyString => s
           end
  end.

(** [str.rstrip()] *)
Definition rstrip (s : string) : string :=
  String.rev (lstrip_reversed (String.rev s)).

(** [str.strip()] *)
Definition strip (s : string) : string := rstrip (lstrip s).

(** [s] without the prefix [p]; [None] when [s] does not start with it. *)
Fixpoint without_prefix (p s : string) : option string :=
  match p, s with
  | EmptyString, _ => Some s
  | String a p', String b s' =>
      if Ascii.eqb a b then without_prefix p' s' else None
  | String _ _, EmptyString => None
  end.

(** [s.removeprefix(p)] *)
Definition removeprefix (p s : string) : string :=
  default s (without_prefix p s).

(** [s.removesuffix(suffix)] *)
Definition removesuffix (suffix s : string) : string :=
  default s (String.rev <$> without_prefix (String.rev suffix) (String.rev s)).

(** [response.text.strip().removeprefix("```html").removesuffix("```")] *)
Definition raw_html_content (text : string) : string :=
  removesuffix "```" (removeprefix "```html" (strip text)).

(** The document the endpoint parses, from the line that prints [tip] on.
    [generate_content] is the call of the language model on the prompt
    followed by [response.text]. *)
Definition generated_document_of (generate_content : string -> result string)
    (current_row_data : gmap string (@row_value float)) : result string :=
  let? tip := row_item current_row_data "tip" in
  let? soru_cevap := row_item current_row_data "soru_cevap" in
  let? formatted_qa_html := format_qa_section soru_cevap in
  let? prompt := generate_llm_prompt current_row_data formatted_qa_html in
  let? text := generate_content prompt in
  Ok (raw_html_content text).

End Prompt.

(** ** Exact rational arithmetic as an implementation of [PyFloat] *)

Module Exact.

(** The nearest integer, ties to the even one. *)
Definition round_half_even (q : Qc) : Z :=
  let n := Qnum (this q) in
  let d := Z.pos (Qden (this q)) in
  let floor := n / d in
  match 2 * (n mod d) ?= d with
  | Lt => floor
  | Gt => floor + 1
  | Eq => if Z.even floor then floor else floor + 1
  end.

Definition scale (digits : nat) (q : Qc) : Qc :=
  (q * Qc_of_Z (10 ^ Z.of_nat digits))%Qc.

Definition unscale (digits : nat) (z : Z) : Qc :=
  (Qc_of_Z z / Qc_of_Z (10 ^ Z.of_nat digits))%Qc.

Definition round_digits (digits : nat) (q : Qc) : Qc :=
  unscale digits (round_half_even (scale digits q)).

Definition trunc (q : Qc) : Z :=
  Z.quot (Qnum (this q)) (Z.pos (Qden (this q))).

Fixpoint pad_zeros (width : nat) (s : string) : string :=
  match width with
  | O => s
  | S w => if (String.length s <? S w)%nat then pad_zeros w ("0" +:+ s) else s
  end.

(** [a / 10^digits] written with [digits] decimals, for [0 <= a]. *)
Definition decimal (digits : nat) (a : Z) : string :=
  let unit := 10 ^ Z.of_nat digits in
  match digits with
  | O => pretty a
  | S _ => pretty (a / unit) +:+ "." +:+ pad_zeros digits (pretty (a mod unit))
  end.

Definition format (plus : bool) (digits : nat) (q : Qc) : string :=
  let sign := if decide (q < 0)%Qc then "-" else if plus then "+" else "" in
  sign +:+ decimal digits (Z.abs (round_half_even (scale digits q))).

(** Drops trailing zeros of [a / 10^digits], keeping one decimal. *)
Fixpoint shorten (digits : nat) (a : Z) : nat * Z :=
  match digits with
  | S (S d as digits') =>
      if a mod 10 =? 0 then shorten digits' (a / 10) else (digits, a)
  | _ => (digits, a)
  end.

(** The decimal with at most 14 decimals and no trailing zero but one.  It
    stands in for [repr], which prints the shortest decimal that reads back
    as the same double. *)
Definition repr (q : Qc) : string :=
  let sign := if decide (q < 0)%Qc then "-" else "" in
  let '(digits, a) := shorten 14 (Z.abs (round_half_even (scale 14 q))) in
  sign +:+ decimal digits a.

#[export] Instance exact_float : PyFloat Qc := {|
  of_Z := Qc_of_Z;
  fadd := Qcplus;
  fsub := Qcminus;
  fmul := Qcmult;
  fdiv := Qcdiv;
  fneg := Qcopp;
  fabs := fun x => if decide (x < 0)%Qc then Qcopp x else x;
  feqb := fun x y => bool_decide (x = y);
  fltb := fun x y => bool_decide (x < y)%Qc;
  fleb := fun x y => bool_decide (x <= y)%Qc;
  fround2 := round_digits 2;
  ftrunc := trunc;
  frepr := repr;
  fformat := format
|}.

End Exact.


(** ** Inputs used to run the model *)

Module Examples.

Import Exact.

Definition percent (n : Z) : @pynum Qc := PFloat (Qc_of_Z n).

(** All seven emotions at [0.0], no averages. *)
Definition all_zero_record : gmap string (@pynum Qc) :=
  list_to_map ((fun key => (key, percent 0)) <$> emotion_keys_ordered).

(** A record without any emotion key. *)
Definition no_emotion_record : gmap string (@pynum Qc) :=
  {[ "llm_skoru" := percent 85 ]}.

(** Three emotions and one average; every other key is missing. *)
Definition scenario_record : gmap string (@pynum Qc) :=
  list_to_map
    [ ("duygu_mutlu_%", percent 40); ("duygu_kizgin_%", PInt 10);
      ("duygu_uzgun_%", percent 5); ("avg_duygu_mutlu_%", percent 30);
      ("llm_skoru", percent 85) ].


(** Two emotions, all below 5. *)
Definition small_record : gmap string (@pynum Qc) :=
  list_to_map [ ("duygu_mutlu_%", percent 2); ("duygu_korku_%", percent 4) ].


Definition tag_attrs (l : list (string * string)) : gmap string string :=
  list_to_map l.

(** The body of the template of [generate_llm_prompt], cut down to the nodes
    the endpoint looks for; the last text node is the one line 595 of the
    source lays out: the token on a line of its own, indented. *)
Definition template_body (chart_section : list node) : node :=
  BeautifulSoup
    [ Tag "html" ∅
        [ Tag "body" ∅
            ([ Tag "div"
                 (tag_attrs [("class", "page-header-logo"); ("id", "header_logo")])
                 [ Tag "img" (tag_attrs [("src", "{{logo_src}}"); ("alt", "Logo")])
                     [] ];
               Tag "div"
                 (tag_attrs [("class", "watermark-image-container");
                             ("id", "watermark-placeholder")]) [] ]
             ++ chart_section
             ++ [ NavigableString
                    (nl +:+ nl +:+ "    {{uygunluk_degerlendirmesi_bolumu}}"
                     +:+ nl) ]) ] ].

Definition template_document : node :=
  template_body
    [ Tag "div" (tag_attrs [("class", "section")])
        [ Tag "h3" ∅ [NavigableString "Duygu Analizi:"];
          Tag "div" (tag_attrs [("id", "bar-chart-placeholder")])
            [NavigableString "grafik"];
          Tag "p" ∅ [NavigableString "yorum"] ] ].

(** A generated document that lost the chart placeholder. *)
Definition document_without_chart : node :=
  template_body [ Tag "p" ∅ [NavigableString "yorum"] ].

(** A document in which the token is the whole text of a node. *)
Definition document_with_bare_token : node :=
  BeautifulSoup
    [ Tag "body" ∅
        [ Tag "p" ∅ [NavigableString "yorum"];
          NavigableString uygunluk_token ] ].

(** A parser that keeps a fragment as one text node. *)
Definition text_parser (markup : string) : list node :=
  [NavigableString markup].

Definition row_data_of (tip : Z) : gmap string (@row_value Qc) :=
  <["tip" := Scalar (CNum (PInt tip))]>
    (<["kisi_adi" := Scalar (CStr "Ada")]>
       ((fun x => Scalar (CNum x)) <$> scenario_record)).

(** A first row with the fifteen required columns and no average. *)
Definition row_without_averages : gmap string (@cell Qc) :=
  list_to_map
    [ ("kisi_adi", CStr "Ada"); ("mulakat_adi", CStr "Backend");
      ("llm_skoru", CNum (percent 85));
      ("duygu_mutlu_%", CNum (percent 40)); ("duygu_kizgin_%", CNum (percent 10));
      ("duygu_igrenme_%", CNum (percent 5)); ("duygu_korku_%", CNum (percent 5));
      ("duygu_uzgun_%", CNum (percent 5)); ("duygu_saskin_%", CNum (percent 5));
      ("duygu_dogal_%", CNum (percent 30));
      ("ekran_disi_sure_sn", CNum (percent 12)); ("ekran_disi_sayisi", CNum (PInt 3));
      ("soru", CStr "Neden?"); ("cevap", CStr "Çünkü."); ("tip", CNum (PInt 0)) ].

Definition table_without_averages : @DataFrame Qc :=
  {| columns := required_columns; rows := [row_without_averages] |}.

(** The same table without the column [tip]. *)
Definition table_without_tip : @DataFrame Qc :=
  {| columns := List.filter (fun col => negb (String.eqb col "tip"))
                  required_columns;
     rows := [delete "tip" row_without_averages] |}.

(** A first row with the twenty-five columns the endpoint reads. *)
Definition complete_row (tip : Z) : gmap string (@cell Qc) :=
  <["tip" := CNum (PInt tip)]>
    (list_to_map
       (((fun key => (key, CNum (percent 20))) <$> avg_keys)
        ++ [ ("avg_llm_skoru", CNum (percent 70));
             ("avg_ekran_disi_sure_sn", CNum (percent 9));
             ("avg_ekran_disi_sayisi", CNum (PInt 2)) ])
     ∪ row_without_averages).

Definition complete_table (tip : Z) : @DataFrame Qc :=
  {| columns := columns_read; rows := [complete_row tip] |}.

(** The same table with a second row and a column the endpoint does not
    read. *)
Definition wider_table (tip : Z) : @DataFrame Qc :=
  {| columns := "not" :: columns_read;
     rows := [ <["not" := CStr "okunmaz"]> (complete_row tip);
               row_without_averages ] |}.

(** [int] on a text that is no number. *)
Definition refuse_text (s : string) : result Z :=
  Raise (ValueError ("invalid literal for int() with base 10: " +:+ s)).

(** [current_row_data] of [complete_row]. *)
Definition built_row (tip : Z) : gmap string (@row_value Qc) :=
  match build_row_data refuse_text (complete_row tip) with
  | Ok current_row_data => current_row_data
  | Raise _ => ∅
  end.

(** A language model that answers with a fenced document. *)
Definition fenced_answer (prompt : string) : result string :=
  Ok ("```html" +:+ nl +:+ "<p>yorum</p>" +:+ nl +:+ "```" +:+ nl).

(** More collaborators to run the endpoint with: [str] of an exception, a
    renderer that returns the document as the bytes of the PDF, [prettify]
    as the texts of the document one after the other, and a [quote] that
    leaves the name as it is. *)
Definition describe (e : exn) : string :=
  match e with
  | KeyError key => key
  | TypeError what => what
  | ValueError msg => msg
  | CollaboratorError msg => msg
  | HTTPException _ detail => detail
  | _ => ""
  end.

Definition document_as_pdf (html : string) : result string := Ok html.

Definition texts_of (soup : node) : string := String.concat "" (strings soup).

Definition unquoted (filename : string) : string := filename.

End Examples.

(** * Properties *)

Section Properties.

Context {float : Type} `{PyFloat float}.

Abbreviation num := (@pynum float).

(** ** Loops and numbers *)

Lemma for_each_Ok {A B : Type} (body : A -> result (list B)) (g : A -> list B)
    (l : list A) :
  (forall a, a ∈ l -> body a = Ok (g a)) ->
  for_each body l = Ok (flat_map g l).
Proof.
  induction l as [|a l IH]; intros Hbody; simpl; [reflexivity|].
  rewrite Hbody by left. simpl.
  rewrite IH; [reflexivity|].
  intros b Hb. apply Hbody. now right.
Qed.




Lemma snd_enumerate_from {A : Type} (i : Z) (l : list A) :
  snd <$> enumerate_from i l = l.
Proof.
  revert i. induction l as [|a l IH]; intros i; simpl; [reflexivity|].
  now rewrite IH.
Qed.

Lemma truediv_Ok (a b : num) :
  py_is_zero b = false -> py_truediv a b = Ok (py_quot a b).
Proof. intros Hb. unfold py_truediv. now rewrite Hb. Qed.

Lemma py_max_elem (x : num) (xs : list num) : py_max x xs ∈ x :: xs.
Proof.
  unfold py_max. revert x. induction xs as [|v xs IH]; intros x; simpl.
  - left.
  - destruct (py_lt x v).
    + right. apply IH.
    + specialize (IH x). apply elem_of_cons in IH as [->|Hin].
      * left.
      * right. now right.
Qed.


Lemma py_lt_float `{!PyFloatLaws float} (a b : num) :
  py_lt a b = fltb (to_float a) (to_float b).
Proof. destruct a, b; simpl; now rewrite ?fltb_of_Z. Qed.

Lemma py_lt_asym `{!PyFloatLaws float} (a b : num) :
  py_lt a b = true -> py_lt b a = false.
Proof. rewrite !py_lt_float. apply fltb_asym. Qed.

Lemma py_lt_irrefl `{!PyFloatLaws float} (a : num) : py_lt a a = false.
Proof.
  destruct (py_lt a a) eqn:Hlt; [|reflexivity].
  now rewrite (py_lt_asym a a Hlt) in Hlt.
Qed.

Lemma py_lt_neg_trans `{!PyFloatLaws float} (a b c : num) :
  py_lt a b = false -> py_lt b c = false -> py_lt a c = false.
Proof. rewrite !py_lt_float. apply fltb_neg_trans. Qed.

(** [max] returns an element that no element exceeds. *)
Lemma py_max_greatest `{!PyFloatLaws float} (x : num) (xs : list num) :
  Forall (fun v => py_lt (py_max x xs) v = false) (x :: xs).
Proof.
  unfold py_max.
  assert (Hfold : forall xs x,
    py_lt (foldl (fun m v => if py_lt m v then v else m) x xs) x = false /\
    Forall (fun v =>
              py_lt (foldl (fun m v => if py_lt m v then v else m) x xs) v
              = false) xs).
  { clear x xs. induction xs as [|v xs IH]; intros x; cbn [foldl].
    - split; [apply py_lt_irrefl | constructor].
    - destruct (IH (if py_lt x v then v else x)) as [Hstart Hrest].
      destruct (py_lt x v) eqn:Hxv.
      + split; [|constructor; assumption].
        apply py_lt_neg_trans with v; [assumption | now apply py_lt_asym].
      + split; [assumption|]. constructor; [|assumption].
        now apply py_lt_neg_trans with x. }
  destruct (Hfold xs x) as [Hx Hxs]. now constructor.
Qed.

(** The scale [max(5, m)]: not below 5 and not below [m]. *)
Lemma at_least_5_greatest `{!PyFloatLaws float} (m : num) :
  let scale := if py_lt m (PInt 5) then PInt 5 else m in
  py_lt scale (PInt 5) = false /\ py_lt scale m = false.
Proof.
  cbn zeta. destruct (py_lt m (PInt 5)) eqn:Hlt.
  - split; [reflexivity | now apply py_lt_asym].
  - split; [assumption | apply py_lt_irrefl].
Qed.

Lemma scale_greatest `{!PyFloatLaws float} (x : num) (xs : list num) :
  let greatest := py_max x xs in
  let scale := if py_lt greatest (PInt 5) then PInt 5 else greatest in
  py_lt scale (PInt 5) = false /\
  Forall (fun v => py_lt scale v = false) (x :: xs).
Proof.
  cbn zeta. destruct (at_least_5_greatest (py_max x xs)) as [H5 Hmax].
  split; [exact H5|].
  eapply Forall_impl; [apply py_max_greatest|].
  intros v Hv. cbn beta in Hv. now apply py_lt_neg_trans with (py_max x xs).
Qed.

Lemma at_least_5_nonzero `{!PyFloatLaws float} (m : num) :
  py_is_zero (if py_lt m (PInt 5) then PInt 5 else m) = false.
Proof.
  destruct (py_lt m (PInt 5)) eqn:Hlt; [reflexivity|].
  destruct m as [z|x]; simpl in *.
  - apply Z.eqb_neq. apply Z.ltb_ge in Hlt. lia.
  - now apply not_below_5_nonzero.
Qed.

Lemma effective_max_nonzero `{!PyFloatLaws float} (e : entry) (es : list entry) :
  py_is_zero (effective_max e es) = false.
Proof. apply at_least_5_nonzero. Qed.

Lemma effective_max_abs_nonzero `{!PyFloatLaws float} (d : entry)
    (ds : list entry) :
  py_is_zero (effective_max_abs d ds) = false.
Proof. apply at_least_5_nonzero. Qed.

(** ** The absolute chart *)

Lemma emotion_values_present (d : gmap string num) :
  emotion_values d =
    (fun key => Entry (default "Bilinmeyen" (labels_map !! key)) (get0 d key))
      <$> present_keys d.
Proof.
  unfold emotion_values, present_keys.
  generalize emotion_keys_ordered as ks.
  induction ks as [|k ks IH]; [reflexivity|].
  cbn [omap list_omap List.filter]. unfold emotion_entry at 1.
  destruct (decide (is_Some (d !! k))) as [Hk|Hk].
  - rewrite bool_decide_eq_true_2 by assumption. cbn [fmap list_fmap].
    f_equal. apply IH.
  - rewrite bool_decide_eq_false_2 by assumption. apply IH.
Qed.

Lemma present_keys_nil (d : gmap string num) :
  present_keys d = [] <-> (forall key, key ∈ emotion_keys_ordered -> d !! key = None).
Proof.
  unfold present_keys. split.
  - intros Hnil key Hin. destruct (d !! key) as [v|] eqn:Hv; [|reflexivity].
    assert (Hmem : In key (List.filter
              (fun key => bool_decide (is_Some (d !! key))) emotion_keys_ordered)).
    { apply filter_In. split; [now apply list_elem_of_In|].
      apply bool_decide_eq_true_2. rewrite Hv. eauto. }
    rewrite Hnil in Hmem. destruct Hmem.
  - generalize emotion_keys_ordered as ks.
    induction ks as [|k ks IH]; intros Hnone; [reflexivity|].
    cbn [List.filter]. rewrite (Hnone k) by left.
    rewrite bool_decide_eq_false_2.
    + apply IH. intros key Hin. apply Hnone. now right.
    + intros [v Hv]. discriminate.
Qed.

Lemma axis_tick_Ok (max_value : num) (svg_height i : Z) :
  py_is_zero max_value = false ->
  axis_tick max_value svg_height i =
    Ok (axis_tick_elements max_value svg_height i).
Proof.
  intros Hm. unfold axis_tick, axis_tick_elements.
  now rewrite (truediv_Ok _ _ Hm).
Qed.

Lemma emotion_bar_Ok (max_value : num) (svg_height : Z) (bar_width : num)
    (ie : Z * entry) :
  py_is_zero max_value = false ->
  emotion_bar max_value svg_height bar_width ie =
    Ok (emotion_bar_elements max_value svg_height bar_width ie).
Proof.
  intros Hm. destruct ie as [i e]. unfold emotion_bar, emotion_bar_elements.
  rewrite (truediv_Ok _ _ Hm). reflexivity.
Qed.

(** The elements of the absolute chart, with every division resolved. *)
Lemma emotion_chart_elements_Ok `{!PyFloatLaws float} (e : entry)
    (es : list entry) :
  let max_value := effective_max e es in
  exists (svg_height : Z) (bar_width : num),
    chart_height max_value = Ok svg_height /\
    chart_bar_width (Z.of_nat (length (e :: es))) = Ok bar_width /\
    emotion_chart_elements e es =
      Ok (svg_height,
          SvgText (py_quot (PInt svg_width) (PInt 2)) (PInt 25) 12 "middle"
            "#333" (Some "400") "Aday Duygu Analizi"
          :: SvgLine (PInt padding) (PInt (svg_height - padding))
               (PInt (svg_width - padding)) (PInt (svg_height - padding)) "1"
          :: flat_map (axis_tick_elements max_value svg_height) [0; 1; 2; 3; 4]
          ++ flat_map (emotion_bar_elements max_value svg_height bar_width)
               (enumerate (e :: es))).
Proof.
  intros max_value.
  assert (Hm : py_is_zero max_value = false) by apply effective_max_nonzero.
  assert (Hn : py_is_zero (PInt (Z.of_nat (length (e :: es)))) = false).
  { reflexivity. }
  unfold emotion_chart_elements, chart_height, chart_bar_width.
  fold max_value.
  rewrite (truediv_Ok max_value (PInt 100)) by reflexivity.
  rewrite (truediv_Ok _ _ Hn).
  rewrite (truediv_Ok (PInt svg_width) (PInt 2)) by reflexivity.
  cbn [bind].
  eexists _, _. split; [reflexivity|]. split; [reflexivity|].
  rewrite (for_each_Ok _ (axis_tick_elements max_value _))
    by (intros; now apply axis_tick_Ok).
  rewrite (for_each_Ok _ (emotion_bar_elements max_value _ _))
    by (intros; now apply emotion_bar_Ok).
  reflexivity.
Qed.

Lemma rects_axis_ticks (max_value : num) (svg_height : Z) (l : list Z) :
  rects (flat_map (axis_tick_elements max_value svg_height) l) = [].
Proof. induction l; simpl; [reflexivity | assumption]. Qed.

Lemma rects_emotion_bars (max_value : num) (svg_height : Z) (bar_width : num)
    (l : list (Z * entry)) :
  rects (flat_map (emotion_bar_elements max_value svg_height bar_width) l) =
    (fun ie =>
       let x := py_add (PInt padding)
                  (py_mul (PInt ie.1) (py_add bar_width (PInt bar_spacing))) in
       let bar_height := py_mul (py_quot (value ie.2) max_value)
                                (PInt (svg_height - 2 * padding)) in
       Rect x (py_sub (PInt (svg_height - padding)) bar_height) bar_width
            bar_height (default "#cccccc" (colors !! name ie.2))) <$> l.
Proof.
  induction l as [|ie l IH]; [reflexivity|].
  cbn [flat_map fmap list_fmap]. unfold emotion_bar_elements at 1.
  cbn [app rects omap list_omap]. f_equal. apply IH.
Qed.

Lemma create_emotion_charts_html_Ok `{!PyFloatLaws float} (d : gmap string num)
    (e : entry) (es : list entry) :
  emotion_values d = e :: es ->
  let max_value := effective_max e es in
  exists (svg_height : Z) (bar_width : num),
    chart_height max_value = Ok svg_height /\
    chart_bar_width (Z.of_nat (length (e :: es))) = Ok bar_width /\
    create_emotion_charts_html d =
      Ok (emotion_chart_markup svg_height
            (SvgText (py_quot (PInt svg_width) (PInt 2)) (PInt 25) 12 "middle"
               "#333" (Some "400") "Aday Duygu Analizi"
             :: SvgLine (PInt padding) (PInt (svg_height - padding))
                  (PInt (svg_width - padding)) (PInt (svg_height - padding)) "1"
             :: flat_map (axis_tick_elements max_value svg_height)
                  [0; 1; 2; 3; 4]
             ++ flat_map (emotion_bar_elements max_value svg_height bar_width)
                  (enumerate (e :: es)))).
Proof.
  intros Hvalues max_value.
  destruct (emotion_chart_elements_Ok e es) as (h & bw & Hh & Hbw & Hels).
  exists h, bw. split; [exact Hh|]. split; [exact Hbw|].
  unfold create_emotion_charts_html. rewrite Hvalues, Hels. reflexivity.
Qed.

Lemma emotion_chart_markup_not_placeholder (svg_height : Z)
    (els : list (@svg_element float)) :
  emotion_chart_markup svg_height els <> no_data_message.
Proof.
  unfold emotion_chart_markup, no_data_message, nl.
  cbn [String.append]. discriminate.
Qed.

(** C1, amended.  A record with none of the seven emotion keys gets the
    placeholder text; a record with at least one of them (its values may all
    be zero) gets chart markup, which is not the placeholder.  In both cases
    the renderer returns and raises nothing. *)
Theorem abs_chart_placeholder_only_without_keys `{!PyFloatLaws float}
    (d : gmap string num) :
  ((forall key, key ∈ emotion_keys_ordered -> d !! key = None) ->
   create_emotion_charts_html d = Ok no_data_message) /\
  ((exists key, key ∈ emotion_keys_ordered /\ is_Some (d !! key)) ->
   exists markup : string,
     create_emotion_charts_html d = Ok markup /\ markup <> no_data_message).
Proof.
  split.
  - intros Hnone. apply present_keys_nil in Hnone.
    unfold create_emotion_charts_html.
    now rewrite emotion_values_present, Hnone.
  - intros (key & Hin & Hsome).
    destruct (emotion_values d) as [|e es] eqn:Hvalues.
    + rewrite emotion_values_present in Hvalues.
      apply fmap_nil_inv in Hvalues.
      rewrite (proj1 (present_keys_nil d) Hvalues key Hin) in Hsome.
      now destruct Hsome.
    + destruct (create_emotion_charts_html_Ok d e es Hvalues)
        as (h & bw & _ & _ & Hrender).
      eexists. split; [exact Hrender|].
      apply emotion_chart_markup_not_placeholder.
Qed.

Lemma emotion_values_values (d : gmap string num) :
  value <$> emotion_values d = omap (fun key => d !! key) emotion_keys_ordered.
Proof.
  unfold emotion_values. generalize emotion_keys_ordered as ks.
  induction ks as [|k ks IH]; [reflexivity|].
  cbn [omap list_omap]. unfold emotion_entry at 1, get0.
  destruct (decide (is_Some (d !! k))) as [[v Hv]|Hk].
  - rewrite Hv. cbn [fmap list_fmap value default]. f_equal. apply IH.
  - destruct (d !! k) as [v|] eqn:Hv; [destruct Hk; eauto|]. apply IH.
Qed.

Lemma emotion_values_cons (d : gmap string num) (key : string) :
  key ∈ emotion_keys_ordered -> is_Some (d !! key) ->
  exists (e : entry) (es : list entry), emotion_values d = e :: es.
Proof.
  intros Hin Hsome. destruct (emotion_values d) as [|e es] eqn:Hvalues.
  - rewrite emotion_values_present in Hvalues. apply fmap_nil_inv in Hvalues.
    rewrite (proj1 (present_keys_nil d) Hvalues key Hin) in Hsome.
    now destruct Hsome.
  - eauto.
Qed.

Lemma rects_chart (title axis : @svg_element float)
    (ticks bars : list svg_element) :
  rects [title] = [] -> rects [axis] = [] -> rects ticks = [] ->
  rects (title :: axis :: ticks ++ bars) = rects bars.
Proof.
  intros Ht Ha Hticks.
  change (title :: axis :: ticks ++ bars)
    with ([title] ++ [axis] ++ ticks ++ bars).
  unfold rects in *. rewrite !omap_app, Ht, Ha, Hticks. reflexivity.
Qed.


(** C3.  When at least one emotion key is in the record, the scale of the
    absolute chart is [max_value] raised to 5 when it is below 5, so it is
    below neither 5 nor any present value; the canvas height follows from
    it, and the height of every bar is its value divided by that scale,
    times the drawing height [svg_height - 2 * padding].  When every present
    value is below 5 the scale is exactly 5. *)
Theorem abs_chart_scale `{!PyFloatLaws float} (d : gmap string num)
    (key : string) :
  key ∈ emotion_keys_ordered -> is_Some (d !! key) ->
  exists (v : num) (vs : list num) (svg_height : Z)
         (els : list svg_element),
    omap (fun key => d !! key) emotion_keys_ordered = v :: vs /\
    let max_value := py_max v vs in
    let effective_max :=
      if py_lt max_value (PInt 5) then PInt 5 else max_value in
    create_emotion_charts_html d = Ok (emotion_chart_markup svg_height els) /\
    svg_height =
      py_int (py_mul (py_quot effective_max (PInt 100)) (PInt 250)) + 80 /\
    Forall2 (fun value bar =>
               rect_height bar =
                 py_mul (py_quot value effective_max)
                        (PInt (svg_height - 2 * padding)))
            (v :: vs) (rects els) /\
    py_lt effective_max (PInt 5) = false /\
    Forall (fun value => py_lt effective_max value = false) (v :: vs) /\
    (Forall (fun value => py_lt value (PInt 5) = true) (v :: vs) ->
     effective_max = PInt 5).
Proof.
  intros Hin Hsome.
  destruct (emotion_values_cons d key Hin Hsome) as (e & es & Hvalues).
  destruct (create_emotion_charts_html_Ok d e es Hvalues)
    as (h & bw & Hh & _ & Hrender).
  exists (value e), (value <$> es), h. eexists.
  split; [now rewrite <- emotion_values_values, Hvalues|].
  cbn zeta. split; [exact Hrender|].
  unfold chart_height in Hh.
  rewrite (truediv_Ok _ (PInt 100)) in Hh by reflexivity.
  cbn [bind] in Hh. injection Hh as Hh.
  split; [now rewrite <- Hh|]. split.
  - rewrite rects_chart by (reflexivity || apply rects_axis_ticks).
    rewrite rects_emotion_bars.
    change (value e :: (value <$> es)) with (value <$> (e :: es)).
    rewrite <- (snd_enumerate_from 0 (e :: es)) at 1.
    apply Forall2_fmap, Forall2_fmap_l, Forall_Forall2_diag, Forall_forall.
    intros ie _. reflexivity.
  - destruct (scale_greatest (value e) (value <$> es)) as [H5 Hgreatest].
    split; [exact H5|]. split; [exact Hgreatest|].
    intros Hsmall.
    pose proof (py_max_elem (value e) (value <$> es)) as Hmax.
    rewrite Forall_forall in Hsmall. now rewrite (Hsmall _ Hmax).
Qed.


(** ** The differential chart *)

Lemma diffs_Ok (d : gmap string num) :
  diffs d =
    Ok ((fun lk =>
           Entry lk.1 (py_round2 (py_sub (get0 d lk.2.1) (get0 d lk.2.2))))
          <$> zip ["Mutlu"; "Kızgın"; "İğrenme"; "Korku"; "Üzgün"; "Şaşkın";
                   "Doğal"]
                  (zip emotion_keys_ordered avg_keys)).
Proof.
  unfold diffs.
  rewrite (for_each_Ok _
    (fun kk => [Entry (default "" (labels_map !! kk.1))
                  (py_round2 (py_sub (get0 d kk.1) (get0 d kk.2)))])).
  - reflexivity.
  - intros [key avg_key] Hin. unfold diff_entry.
    assert (Hkey : key ∈ emotion_keys_ordered).
    { apply (elem_of_zip_l _ _ _ _ Hin). }
    assert (Hlabel : label_of key = Ok (default "" (labels_map !! key))).
    { unfold emotion_keys_ordered in Hkey.
      repeat (apply elem_of_cons in Hkey as [->|Hkey]; [reflexivity|]).
      now apply elem_of_nil in Hkey. }
    now rewrite Hlabel.
Qed.

Lemma diff_tick_Ok (max_abs panel baseline_y perc : num) :
  py_is_zero max_abs = false ->
  diff_tick max_abs panel baseline_y perc =
    Ok (diff_tick_elements max_abs panel baseline_y perc).
Proof.
  intros Hm. unfold diff_tick, diff_tick_elements.
  now rewrite (truediv_Ok _ _ Hm).
Qed.

Lemma diff_bar_Ok (max_abs panel baseline_y bar_width : num) (ie : Z * entry) :
  py_is_zero max_abs = false ->
  diff_bar max_abs panel baseline_y bar_width ie =
    Ok (diff_bar_elements max_abs panel baseline_y bar_width ie).
Proof.
  intros Hm. destruct ie as [i e]. unfold diff_bar, diff_bar_elements.
  rewrite (truediv_Ok _ _ Hm). reflexivity.
Qed.

(** The elements of the differential chart, with every division resolved. *)
Lemma diff_chart_elements_Ok `{!PyFloatLaws float} (e : entry)
    (es : list entry) :
  let max_abs := effective_max_abs e es in
  let panel := py_mul (py_quot max_abs (PInt 100)) (PInt base_height) in
  let baseline_y := py_add (PInt padding) panel in
  let num_bars := Z.of_nat (length (e :: es)) in
  let bar_width :=
    py_quot (PInt (svg_width - 2 * padding - (num_bars - 1) * bar_spacing))
            (PInt num_bars) in
  diff_chart_elements e es =
    Ok (py_int (py_add (py_mul panel (PInt 2)) (PInt (padding * 2))),
        SvgText (py_quot (PInt svg_width) (PInt 2)) (PInt 25) 12 "middle"
          "#333" (Some "400") "Aday Duygularının Ortalamadan Farkı"
        :: SvgLine (PInt padding) baseline_y (PInt (svg_width - padding))
             baseline_y "1"
        :: flat_map (diff_tick_elements max_abs panel baseline_y)
             [py_neg max_abs; PInt 0; max_abs]
        ++ flat_map (diff_bar_elements max_abs panel baseline_y bar_width)
             (enumerate (e :: es))).
Proof.
  intros max_abs panel baseline_y num_bars bar_width.
  assert (Hm : py_is_zero max_abs = false) by apply effective_max_abs_nonzero.
  assert (Hn : py_is_zero (PInt num_bars) = false) by reflexivity.
  unfold diff_chart_elements. fold max_abs.
  rewrite (truediv_Ok max_abs (PInt 100)) by reflexivity.
  cbn [bind]. fold panel. fold num_bars.
  rewrite (truediv_Ok _ _ Hn).
  rewrite (truediv_Ok (PInt svg_width) (PInt 2)) by reflexivity.
  cbn [bind]. fold bar_width baseline_y.
  rewrite (for_each_Ok _ (diff_tick_elements max_abs panel baseline_y))
    by (intros; now apply diff_tick_Ok).
  rewrite (for_each_Ok _ (diff_bar_elements max_abs panel baseline_y bar_width))
    by (intros; now apply diff_bar_Ok).
  reflexivity.
Qed.

Lemma create_emotion_charts_html_2_Ok `{!PyFloatLaws float}
    (d : gmap string num) :
  exists (e : entry) (es : list entry) (svg_height : Z)
         (els : list svg_element),
    diffs d = Ok (e :: es) /\
    length (e :: es) = 7%nat /\
    diff_chart_elements e es = Ok (svg_height, els) /\
    create_emotion_charts_html_2 d = Ok (diff_chart_markup svg_height els).
Proof.
  pose proof (diffs_Ok d) as Hdiffs.
  cbn [zip_with emotion_keys_ordered avg_keys fmap list_fmap] in Hdiffs.
  match type of Hdiffs with
  | _ = Ok (?e :: ?es) => exists e, es
  end.
  eexists _, _. split; [exact Hdiffs|]. split; [reflexivity|].
  split; [apply diff_chart_elements_Ok|].
  unfold create_emotion_charts_html_2. rewrite Hdiffs. cbn [bind].
  rewrite diff_chart_elements_Ok. reflexivity.
Qed.
















(** ** The document tree *)

Lemma node_ind' (P : node -> Prop) :
  (forall tag_name attrs contents,
      Forall P contents -> P (Tag tag_name attrs contents)) ->
  (forall text, P (NavigableString text)) ->
  forall n, P n.
Proof.
  intros HTag HText. fix IH 1. intros [tag_name attrs contents|text].
  - apply HTag. induction contents as [|c cs IHcs]; constructor.
    + apply IH.
    + exact IHcs.
  - apply HText.
Qed.

Section Edits.

Context (p : node -> bool) (f : node -> list node).

(** Nothing is edited when the search finds nothing. *)
Lemma edit_found_None (n : node) :
  find_first p n = None -> edit_found p f n = None.
Proof.
  induction n as [tag_name attrs contents IH|text] using node_ind';
    [|reflexivity].
  cbn [find_first edit_found]. intros Hfind.
  assert (Hin : edit_in p f (edit_found p f) contents = None).
  { induction contents as [|c cs IHcs]; [reflexivity|].
    apply Forall_cons in IH as [IHc IHrest].
    cbn [find_in edit_in] in *. destruct (p c); [discriminate|].
    destruct (find_first p c); [discriminate|].
    rewrite IHc by reflexivity. now rewrite IHcs. }
  now rewrite Hin.
Qed.

Lemma edit_first_not_found (n : node) :
  find_first p n = None -> edit_first p f n = n.
Proof.
  intros Hfind. unfold edit_first. now rewrite edit_found_None.
Qed.

(** The edit puts [g c] where the search found [c], and the search finds it
    there again, when [f] makes one node [g c] of [c] that [p] still accepts
    and [p] does not look at the contents of a tag. *)
Lemma find_first_edit_found (g : node -> node) (n c : node) :
  (forall x, p x = true -> f x = [g x] /\ p (g x) = true) ->
  (forall tag_name attrs cs cs',
      p (Tag tag_name attrs cs) = p (Tag tag_name attrs cs')) ->
  find_first p n = Some c ->
  exists n', edit_found p f n = Some n' /\ find_first p n' = Some (g c).
Proof.
  intros Hf Hp. revert c.
  induction n as [tag_name attrs contents IH|text] using node_ind';
    [|discriminate].
  cbn [find_first edit_found]. intros c Hfind.
  assert (Hin : exists l',
    edit_in p f (edit_found p f) contents = Some l' /\
    find_in p (find_first p) l' = Some (g c)).
  { induction contents as [|c0 cs IHcs]; [discriminate|].
    apply Forall_cons in IH as [IHc IHrest].
    cbn [find_in edit_in] in *. destruct (p c0) eqn:Hpc0.
    - injection Hfind as <-. destruct (Hf c0 Hpc0) as [Hfc Hpg].
      rewrite Hfc. eexists. split; [reflexivity|].
      cbn [app find_in]. now rewrite Hpg.
    - destruct (find_first p c0) as [hit|] eqn:Hc0.
      + injection Hfind as <-.
        destruct (IHc hit eq_refl) as (c0' & Hedit & Hfind').
        rewrite Hedit. eexists. split; [reflexivity|].
        cbn [find_in]. rewrite Hfind'.
        assert (Hpc0' : p c0' = false).
        { destruct c0 as [tn at0 cs0|t]; [|discriminate].
          cbn [edit_found] in Hedit.
          destruct (edit_in p f (edit_found p f) cs0); [|discriminate].
          injection Hedit as <-. now rewrite (Hp tn at0 _ cs0). }
        now rewrite Hpc0'.
      + rewrite (edit_found_None c0 Hc0).
        destruct (IHcs IHrest Hfind) as (l' & Hedit & Hfind').
        rewrite Hedit. eexists. split; [reflexivity|].
        cbn [find_in]. now rewrite Hpc0, Hc0. }
  destruct Hin as (l' & Hedit & Hfind'). rewrite Hedit.
  eexists. split; [reflexivity|]. exact Hfind'.
Qed.

End Edits.

Lemma find_first_sat (p : node -> bool) (n c : node) :
  find_first p n = Some c -> p c = true.
Proof.
  revert c. induction n as [tag_name attrs contents IH|text] using node_ind';
    [|discriminate].
  cbn [find_first]. intros c.
  induction contents as [|c0 cs IHcs]; [discriminate|].
  apply Forall_cons in IH as [IHc IHrest]. cbn [find_in].
  destruct (p c0) eqn:Hpc0.
  - now intros [= <-].
  - destruct (find_first p c0) as [hit|].
    + intros [= <-]. now apply IHc.
    + now apply IHcs.
Qed.

(** ** The endpoint *)

Lemma create_emotion_charts_html_total `{!PyFloatLaws float}
    (d : gmap string num) :
  exists markup : string, create_emotion_charts_html d = Ok markup.
Proof.
  destruct (emotion_values d) as [|e es] eqn:Hvalues.
  - exists no_data_message. unfold create_emotion_charts_html.
    now rewrite Hvalues.
  - destruct (create_emotion_charts_html_Ok d e es Hvalues)
      as (h & bw & _ & _ & Hrender).
    eauto.
Qed.

(** C7.  When the document has a node with id [bar-chart-placeholder], the
    chart step succeeds and the first such node keeps its name and
    attributes while its contents become the parse of the absolute chart
    followed by the differential chart.  When it has none, the chart step
    returns the document as it is, and the assembly is the logo step and the
    [tip] step applied to it, which succeed. *)
Theorem chart_placeholder_replaced `{!PyFloatLaws float}
    (html_parser : string -> list node) (logo_base64 : string)
    (current_row_data : gmap string (@row_value float)) (soup : node) :
  match find_first (has_id chart_placeholder_id) soup with
  | Some placeholder =>
      exists (abs_chart_html diff_chart_html tag_name : string)
             (attrs : gmap string string) (old_contents : list node)
             (soup' : node),
        placeholder = Tag tag_name attrs old_contents /\
        create_emotion_charts_html (numbers current_row_data) =
          Ok abs_chart_html /\
        create_emotion_charts_html_2 (numbers current_row_data) =
          Ok diff_chart_html /\
        insert_charts html_parser current_row_data soup = Ok soup' /\
        find_first (has_id chart_placeholder_id) soup' =
          Some (Tag tag_name attrs
                  (html_parser (abs_chart_html +:+ diff_chart_html)))
  | None =>
      insert_charts html_parser current_row_data soup = Ok soup /\
      assemble html_parser logo_base64 current_row_data soup =
        remove_uygunluk current_row_data (insert_logo logo_base64 soup) /\
      (is_Some (current_row_data !! "tip") ->
       exists soup' : node,
         assemble html_parser logo_base64 current_row_data soup = Ok soup')
  end.
Proof.
  destruct (find_first (has_id chart_placeholder_id) soup)
    as [placeholder|] eqn:Hfind.
  - destruct (create_emotion_charts_html_total (numbers current_row_data))
      as [abs_chart_html Habs].
    destruct (create_emotion_charts_html_2_Ok (numbers current_row_data))
      as (e & es & h & els & _ & _ & _ & Hdiff).
    pose proof (find_first_sat _ _ _ Hfind) as Hid.
    destruct placeholder as [tag_name attrs old_contents|text];
      [|discriminate].
    set (new_contents :=
           html_parser (abs_chart_html +:+ diff_chart_markup h els)).
    destruct (find_first_edit_found (has_id chart_placeholder_id)
                (replace_contents new_contents) (with_contents new_contents)
                soup (Tag tag_name attrs old_contents))
      as (soup' & Hedit & Hfind').
    { intros x Hx. split; [reflexivity|]. now destruct x. }
    { reflexivity. }
    { exact Hfind. }
    exists abs_chart_html, (diff_chart_markup h els), tag_name, attrs,
      old_contents, soup'.
    split; [reflexivity|]. split; [exact Habs|]. split; [exact Hdiff|].
    split; [|exact Hfind'].
    unfold insert_charts. rewrite Hfind, Habs, Hdiff. cbn [bind].
    unfold edit_first. fold new_contents. now rewrite Hedit.
  - assert (Hcharts : insert_charts html_parser current_row_data soup = Ok soup).
    { unfold insert_charts. now rewrite Hfind. }
    split; [exact Hcharts|].
    assert (Hassemble :
      assemble html_parser logo_base64 current_row_data soup =
        remove_uygunluk current_row_data (insert_logo logo_base64 soup)).
    { unfold assemble. now rewrite Hcharts. }
    split; [exact Hassemble|].
    intros [tip Htip]. rewrite Hassemble. unfold remove_uygunluk, row_item.
    rewrite Htip. cbn [bind]. destruct (equals_one tip); eauto.
Qed.

(** The [tip] step leaves the document as it is unless [tip == 1]. *)
Lemma remove_uygunluk_other_tip
    (current_row_data : gmap string (@row_value float)) (tip : row_value)
    (soup : node) :
  current_row_data !! "tip" = Some tip -> equals_one tip = false ->
  remove_uygunluk current_row_data soup = Ok soup.
Proof.
  intros Htip Hone. unfold remove_uygunluk, row_item.
  rewrite Htip. cbn [bind]. now rewrite Hone.
Qed.

(** For [tip == 1] the step finds only a text node that is the token and
    nothing else; a document without such a node is returned as it is. *)
Lemma remove_uygunluk_not_found
    (current_row_data : gmap string (@row_value float)) (tip : row_value)
    (soup : node) :
  current_row_data !! "tip" = Some tip ->
  find_first (has_text uygunluk_token) soup = None ->
  remove_uygunluk current_row_data soup = Ok soup.
Proof.
  intros Htip Hfind. unfold remove_uygunluk, row_item.
  rewrite Htip. cbn [bind].
  rewrite edit_first_not_found by exact Hfind. now destruct (equals_one tip).
Qed.

(** Every exception of the [try] block except [EmptyDataError] reaches the
    client as status 500, the [HTTPException] with status 400 that the block
    itself raises included. *)
Lemma generate_report_internal_error
    (read_csv : string -> result (@DataFrame float))
    (generated_document : gmap string (@row_value float) -> result string)
    (html_parser : string -> list node) (prettify : node -> string)
    (create_pdf_from_html : string -> result string) (logo_base64 : string)
    (int_of_text : string -> result Z) (str_exn : exn -> string)
    (url_quote : string -> string) (filename file_content : string) (e : exn) :
  ends_with filename ".csv" = true ->
  report_body read_csv generated_document html_parser prettify
    create_pdf_from_html logo_base64 int_of_text url_quote file_content
    = Raise e ->
  e <> EmptyDataError ->
  generate_report read_csv generated_document html_parser prettify
    create_pdf_from_html logo_base64 int_of_text str_exn url_quote
    filename file_content
    = Raise (HTTPException 500
               ("Rapor oluşturulurken sunucuda bir hata oluştu: "
                +:+ str_exn e)).
Proof.
  intros Hcsv Hbody He. unfold generate_report. rewrite Hcsv, Hbody.
  cbn [negb]. now destruct e.
Qed.

End Properties.

(** * The model run on exact rational arithmetic *)

Import Exact Examples.

#[export] Instance exact_laws : PyFloatLaws Qc.
Proof.
  split; cbn [of_Z fltb fleb feqb fsub fround2 fabs fdiv fmul fformat
              exact_float].
  - intros a b. destruct (Z.ltb_spec a b) as [Hlt|Hle].
    + apply bool_decide_eq_true. apply (proj1 (Z2Qc_inj_lt a b)). lia.
    + apply bool_decide_eq_false. intros Hlt.
      apply (proj2 (Z2Qc_inj_lt a b)) in Hlt. lia.
  - intros a b. destruct (Z.leb_spec a b) as [Hle|Hlt].
    + apply bool_decide_eq_true. apply (proj1 (Z2Qc_inj_le a b)). lia.
    + apply bool_decide_eq_false. intros Hle.
      apply (proj2 (Z2Qc_inj_le a b)) in Hle. lia.
  - intros x y Hlt. apply bool_decide_eq_true in Hlt.
    apply bool_decide_eq_false. apply Qcle_not_lt. now apply Qclt_le_weak.
  - intros x y z Hxy Hyz. apply bool_decide_eq_false in Hxy, Hyz.
    apply bool_decide_eq_false. apply Qcle_not_lt.
    apply Qcle_trans with y; now apply Qcnot_lt_le.
  - intros x Hlt. apply bool_decide_eq_false in Hlt.
    apply bool_decide_eq_false. intros ->. apply Hlt.
    apply (proj1 (Z2Qc_inj_lt 0 5)). lia.
  - intros x. rewrite Z2Qc_inj_0. unfold Qcminus. apply Qcplus_opp_r.
  - apply Qc_is_canon. reflexivity.
  - now destruct (decide (Qc_of_Z 0 < 0)%Qc).
  - intros y. rewrite Z2Qc_inj_0. unfold Qcdiv. apply Qcmult_0_l.
  - intros y. rewrite Z2Qc_inj_0. apply Qcmult_0_l.
  - intros n x. unfold format. eexists.
    destruct (decide (x < 0)%Qc) as [Hneg|Hpos].
    + rewrite bool_decide_eq_false_2; [reflexivity|].
      now apply Qclt_not_le.
    + rewrite bool_decide_eq_true_2; [reflexivity|].
      now apply Qcnot_lt_le.
Qed.

(** C1 as the specification states it fails: the seven values of
    [all_zero_record] are zero, and the renderer returns the markup of a
    chart for it, not the placeholder text. *)
Lemma abs_chart_all_zero_is_a_chart :
  (forall key, key ∈ emotion_keys_ordered ->
               all_zero_record !! key = Some (PFloat (Qc_of_Z 0))) /\
  create_emotion_charts_html all_zero_record <> Ok no_data_message.
Proof.
  split.
  - intros key Hin. unfold emotion_keys_ordered in Hin.
    repeat (apply elem_of_cons in Hin as [->|Hin]; [reflexivity|]).
    now apply elem_of_nil in Hin.
  - vm_compute. discriminate.
Qed.

Lemma abs_chart_placeholder_only_without_keys_witness :
  create_emotion_charts_html no_emotion_record = Ok no_data_message /\
  exists markup : string,
    create_emotion_charts_html all_zero_record = Ok markup /\
    markup <> no_data_message.
Proof.
  split.
  - apply (proj1 (abs_chart_placeholder_only_without_keys no_emotion_record)).
    intros key Hin. unfold emotion_keys_ordered in Hin.
    repeat (apply elem_of_cons in Hin as [->|Hin]; [reflexivity|]).
    now apply elem_of_nil in Hin.
  - apply (proj2 (abs_chart_placeholder_only_without_keys all_zero_record)).
    exists "duygu_mutlu_%". split; [left | vm_compute; eauto].
Defined.

Lemma Forall2_fmap_eq {A B C : Type} (f : A -> C) (g : B -> C) (l : list A)
    (k : list B) :
  Forall2 (fun a b => g b = f a) l k -> g <$> k = f <$> l.
Proof.
  induction 1 as [|a b l k Hab _ IH]; [reflexivity|].
  cbn [fmap list_fmap]. now rewrite Hab, IH.
Qed.


(** C3 on the scenario of the specification: values 40, 10 and 5 give the
    scale 40, the canvas height 180 and bars of height 100, 25 and 12.5. *)
Lemma abs_chart_scale_witness :
  exists els : list svg_element,
    create_emotion_charts_html scenario_record =
      Ok (emotion_chart_markup 180 els) /\
    py_str <$> (rect_height <$> rects els) = ["100.0"; "25.0"; "12.5"].
Proof.
  destruct (abs_chart_scale scenario_record "duygu_mutlu_%")
    as (v & vs & h & els & Hvalues & Hrest).
  - left.
  - vm_compute. eauto.
  - vm_compute in Hvalues. injection Hvalues as <- <-.
    cbv zeta in Hrest. destruct Hrest as (Hrender & Hh & Hbars & _).
    vm_compute in Hh. subst h. exists els. split; [exact Hrender|].
    rewrite (Forall2_fmap_eq _ _ _ _ Hbars). vm_compute. reflexivity.
Defined.






(** C7 on the template: the placeholder [div] keeps its attributes and gets
    the two charts as its contents; the document without the placeholder
    goes through the chart step unchanged. *)
Lemma chart_placeholder_replaced_witness :
  (exists (abs_chart_html diff_chart_html : string) (soup' : node),
     create_emotion_charts_html (numbers (row_data_of 0)) = Ok abs_chart_html /\
     create_emotion_charts_html_2 (numbers (row_data_of 0))
       = Ok diff_chart_html /\
     insert_charts text_parser (row_data_of 0) template_document = Ok soup' /\
     find_first (has_id chart_placeholder_id) soup' =
       Some (Tag "div" (tag_attrs [("id", "bar-chart-placeholder")])
               [NavigableString (abs_chart_html +:+ diff_chart_html)])) /\
  insert_charts text_parser (row_data_of 0) document_without_chart
    = Ok document_without_chart.
Proof.
  split.
  - pose proof (chart_placeholder_replaced text_parser "" (row_data_of 0)
                  template_document) as Hstep.
    assert (Hfind : find_first (has_id chart_placeholder_id) template_document
                    = Some (Tag "div"
                              (tag_attrs [("id", "bar-chart-placeholder")])
                              [NavigableString "grafik"]))
      by (vm_compute; reflexivity).
    rewrite Hfind in Hstep.
    destruct Hstep as (abs_chart_html & diff_chart_html & tag_name & attrs
                       & old_contents & soup' & Htag & Habs & Hdiff & Hinsert
                       & Hfound).
    injection Htag as <- <- <-.
    exists abs_chart_html, diff_chart_html, soup'. now repeat split.
  - pose proof (chart_placeholder_replaced text_parser "" (row_data_of 0)
                  document_without_chart) as Hstep.
    assert (Hfind : find_first (has_id chart_placeholder_id)
                      document_without_chart = None)
      by (vm_compute; reflexivity).
    rewrite Hfind in Hstep. exact (proj1 Hstep).
Defined.

(** C8 on the template: with [tip == 1] the search for a text node equal to
    the token finds nothing, because the text node of the template holds the
    token between line breaks and spaces; the step returns the document as
    it is, and the assembled document still has the token. *)
Lemma uygunluk_token_left_in_template :
  row_data_of 1 !! "tip" = Some (Scalar (CNum (PInt 1))) /\
  mentions uygunluk_token template_document = true /\
  find_first (has_text uygunluk_token) template_document = None /\
  remove_uygunluk (row_data_of 1) template_document = Ok template_document /\
  match assemble text_parser "" (row_data_of 1) template_document with
  | Ok soup => mentions uygunluk_token soup
  | Raise _ => false
  end = true.
Proof.
  split; [vm_compute; reflexivity|]. split; [vm_compute; reflexivity|].
  assert (Hfind : find_first (has_text uygunluk_token) template_document = None)
    by (vm_compute; reflexivity).
  split; [exact Hfind|]. split.
  - now apply (remove_uygunluk_not_found _ (Scalar (CNum (PInt 1)))).
  - vm_compute. reflexivity.
Qed.

(** The step does what it is meant to do when the token is a text node of
    its own, and does nothing for [tip == 0]. *)
Lemma uygunluk_token_removed_when_bare :
  remove_uygunluk (row_data_of 1) document_with_bare_token =
    Ok (BeautifulSoup [Tag "body" ∅ [Tag "p" ∅ [NavigableString "yorum"]]]) /\
  remove_uygunluk (row_data_of 0) document_with_bare_token =
    Ok document_with_bare_token.
Proof. split; vm_compute; reflexivity. Qed.

(** C2 on a table with the fifteen checked columns and no average column:
    the check of the columns passes, reading [avg_duygu_mutlu_%] raises
    [KeyError], and the client gets status 500. *)
Lemma missing_average_column_answers_500
    (generated_document : gmap string (@row_value Qc) -> result string)
    (html_parser : string -> list node) (prettify : node -> string)
    (create_pdf_from_html : string -> result string) (logo_base64 : string)
    (int_of_text : string -> result Z) (str_exn : exn -> string)
    (url_quote : string -> string) (file_content : string) :
  forallb (has_column table_without_averages) required_columns = true /\
  generate_report (fun _ => Ok table_without_averages) generated_document
    html_parser prettify create_pdf_from_html logo_base64 int_of_text str_exn
    url_quote "rapor.csv" file_content
  = Raise (HTTPException 500
             ("Rapor oluşturulurken sunucuda bir hata oluştu: "
              +:+ str_exn (KeyError "avg_duygu_mutlu_%"))).
Proof.
  split; [vm_compute; reflexivity|].
  apply generate_report_internal_error.
  - vm_compute. reflexivity.
  - vm_compute. reflexivity.
  - discriminate.
Qed.

(** The status 400 that the check of the columns raises does not reach the
    client either: it is raised inside the [try] block, whose last clause
    turns it into status 500. *)
Lemma missing_checked_column_answers_500
    (generated_document : gmap string (@row_value Qc) -> result string)
    (html_parser : string -> list node) (prettify : node -> string)
    (create_pdf_from_html : string -> result string) (logo_base64 : string)
    (int_of_text : string -> result Z) (str_exn : exn -> string)
    (url_quote : string -> string) (file_content : string) :
  generate_report (fun _ => Ok table_without_tip) generated_document
    html_parser prettify create_pdf_from_html logo_base64 int_of_text str_exn
    url_quote "rapor.csv" file_content
  = Raise (HTTPException 500
             ("Rapor oluşturulurken sunucuda bir hata oluştu: "
              +:+ str_exn
                    (HTTPException 400
                       "CSV dosyasında eksik sütunlar var: tip"))).
Proof.
  apply generate_report_internal_error.
  - vm_compute. reflexivity.
  - vm_compute. reflexivity.
  - discriminate.
Qed.

(** Whatever the upload, the endpoint never answers with the status 400 of
    the missing-columns check. *)
Lemma missing_columns_status_never_answered
    (read_csv : string -> result (@DataFrame Qc))
    (generated_document : gmap string (@row_value Qc) -> result string)
    (html_parser : string -> list node) (prettify : node -> string)
    (create_pdf_from_html : string -> result string) (logo_base64 : string)
    (int_of_text : string -> result Z) (str_exn : exn -> string)
    (url_quote : string -> string) (filename file_content : string)
    (missing : string) :
  generate_report read_csv generated_document html_parser prettify
    create_pdf_from_html logo_base64 int_of_text str_exn url_quote
    filename file_content
  <> Raise (HTTPException 400
              ("CSV dosyasında eksik sütunlar var: " +:+ missing)).
Proof.
  unfold generate_report.
  destruct (ends_with filename ".csv"); cbn [negb]; [|discriminate].
  destruct (report_body _ _ _ _ _ _ _ _ _) as [response|e]; [discriminate|].
  destruct e; discriminate.
Qed.

(** * The dict of the first row, the prompt and the answers of the endpoint *)

Ltac in_entries :=
  unfold row_entries; repeat (first [left; reflexivity | right]).

Ltac only_entry :=
  let e := fresh "e" in
  let Hin := fresh "Hin" in
  let Hkey := fresh "Hkey" in
  intros e Hin Hkey; unfold row_entries in Hin;
  repeat (apply elem_of_cons in Hin as [->|Hin];
          [first [reflexivity | discriminate Hkey]|]);
  now apply elem_of_nil in Hin.

(** Reads the fields of a prompt off a dict that has them all. *)
Ltac read_fields Hfield :=
  repeat match goal with
         | |- context [field ?crd ?key] =>
             let text := fresh "text" in
             let Htext := fresh "Htext" in
             destruct (Hfield key) as [text Htext];
             [vm_compute; repeat (first [left; reflexivity | right])
             | rewrite Htext; clear Htext; cbn [bind]]
         end.

Lemma Ok_inj {A : Type} (a b : A) : Ok a = Ok b -> a = b.
Proof. now intros [= ->]. Qed.


Section RowData.

Context {float : Type} `{PyFloat float}.
Context (int_of_text : string -> result Z).

Implicit Types (row : gmap string (@cell float))
               (crd acc : gmap string (@row_value float)).

Lemma read_entry_key row (e : row_entry) kv :
  read_entry int_of_text row e = Ok kv -> kv.1 = entry_key e.
Proof.
  destruct e as [key how|]; cbn [read_entry entry_key].
  - destruct (getitem row key) as [c|]; [|discriminate]. cbn [bind].
    destruct (convert int_of_text how c); [|discriminate]. now intros [= <-].
  - destruct (getitem row "soru"); [|discriminate]. cbn [bind].
    destruct (getitem row "cevap"); [|discriminate]. now intros [= <-].
Qed.

(** What the last entry that writes [key] stores is what the dict holds. *)
Lemma read_entries_established (P : @row_value float -> Prop) row
    (key : string) (es : list row_entry) acc crd :
  (forall e kv, e ∈ es -> entry_key e = key ->
                read_entry int_of_text row e = Ok kv -> P kv.2) ->
  (exists v, acc !! key = Some v /\ P v)
  \/ (exists e, e ∈ es /\ entry_key e = key) ->
  read_entries int_of_text row es acc = Ok crd ->
  exists v, crd !! key = Some v /\ P v.
Proof.
  revert acc. induction es as [|e es IH]; intros acc HP Hin;
    cbn [read_entries].
  - intros [= <-]. destruct Hin as [Hacc|(e & Hin & _)]; [exact Hacc|].
    now apply elem_of_nil in Hin.
  - destruct (read_entry int_of_text row e) as [kv|] eqn:Hread;
      [|discriminate].
    cbn [bind]. apply IH.
    + intros e' kv' Hin'. apply HP. now right.
    + pose proof (read_entry_key _ _ _ Hread) as Hkey.
      destruct (decide (entry_key e = key)) as [Heq|Hne].
      * left. exists kv.2. rewrite Hkey, Heq, lookup_insert_eq.
        split; [reflexivity|]. apply (HP e kv); [left | exact Heq | exact Hread].
      * destruct Hin as [(v & Hacc & Hv)|(e' & Hin & He')].
        -- left. exists v. rewrite lookup_insert_ne by congruence. now split.
        -- apply elem_of_cons in Hin as [->|Hin]; [congruence|].
           right. now exists e'.
Qed.

(** Every key of the dict literal is in the dict. *)
Lemma built_row_keys row crd (key : string) :
  key ∈ entry_key <$> row_entries ->
  build_row_data int_of_text row = Ok crd ->
  is_Some (crd !! key).
Proof.
  intros Hin Hbuild. apply list_elem_of_fmap in Hin as (e & -> & Hin).
  destruct (read_entries_established (fun _ => True) row (entry_key e)
              row_entries ∅ crd) as (v & Hv & _); eauto.
Qed.

Lemma field_Ok crd (key : string) :
  is_Some (crd !! key) -> exists text : string, field crd key = Ok text.
Proof.
  intros [v Hv]. unfold field, row_item. rewrite Hv. cbn [bind]. eauto.
Qed.

Lemma built_row_fields row crd (key : string) :
  build_row_data int_of_text row = Ok crd ->
  key ∈ entry_key <$> row_entries ->
  exists text : string, field crd key = Ok text.
Proof. intros Hbuild Hin. eapply field_Ok, built_row_keys; eauto. Qed.

(** The cell a column entry stores is the conversion of the cell of the
    first row. *)
Lemma built_row_column row crd (key : string) (how : conversion) :
  Column key how ∈ row_entries ->
  (forall e, e ∈ row_entries -> entry_key e = key -> e = Column key how) ->
  build_row_data int_of_text row = Ok crd ->
  exists c v, row !! key = Some c /\ convert int_of_text how c = Ok v /\
              crd !! key = Some (Scalar v).
Proof.
  intros Hin Honly Hbuild.
  destruct (read_entries_established
              (fun w => exists c v, row !! key = Some c /\
                                    convert int_of_text how c = Ok v /\
                                    w = Scalar v)
              row key row_entries ∅ crd) as (w & Hw & c & v & Hc & Hv & ->).
  - intros e kv He Hkey Hread. rewrite (Honly e He Hkey) in Hread.
    cbn [read_entry] in Hread. unfold getitem in Hread.
    destruct (row !! key) as [c|]; [|discriminate]. cbn [bind] in Hread.
    destruct (convert int_of_text how c) as [v|] eqn:Hv; [|discriminate].
    injection Hread as <-. now exists c, v.
  - right. now exists (Column key how).
  - exact Hbuild.
  - now exists c, v.
Qed.

Lemma convert_ToInt (c v : @cell float) :
  convert int_of_text ToInt c = Ok v -> exists tip : Z, v = CNum (PInt tip).
Proof.
  destruct c as [x|s]; cbn [convert].
  - intros [= <-]. eauto.
  - destruct (int_of_text s); [|discriminate]. intros [= <-]. eauto.
Qed.


(** [current_row_data["tip"]] is the int of the cell [tip] of the row. *)
Lemma built_row_tip row crd :
  build_row_data int_of_text row = Ok crd ->
  exists (c : cell) (tip : Z),
    row !! "tip" = Some c /\
    convert int_of_text ToInt c = Ok (CNum (PInt tip)) /\
    crd !! "tip" = Some (Scalar (CNum (PInt tip))).
Proof.
  intros Hbuild.
  destruct (built_row_column row crd "tip" ToInt) as (c & v & Hc & Hv & Hcrd);
    [in_entries | only_entry | exact Hbuild |].
  destruct (convert_ToInt c v Hv) as [tip ->]. now exists c, tip.
Qed.

(** [current_row_data["soru_cevap"]] is a list of one item. *)
Lemma built_row_soru_cevap row crd :
  build_row_data int_of_text row = Ok crd ->
  exists soru cevap : cell,
    row !! "soru" = Some soru /\ row !! "cevap" = Some cevap /\
    crd !! "soru_cevap" = Some (QaList [(soru, cevap)]).
Proof.
  intros Hbuild.
  destruct (read_entries_established
              (fun w => exists soru cevap : cell,
                          row !! "soru" = Some soru /\
                          row !! "cevap" = Some cevap /\
                          w = QaList [(soru, cevap)])
              row "soru_cevap" row_entries ∅ crd)
    as (w & Hw & soru & cevap & Hs & Hc & ->).
  - intros e kv He Hkey Hread.
    assert (He' : e = SoruCevap).
    { clear Hread. revert e He Hkey. only_entry. }
    subst e. cbn [read_entry] in Hread. unfold getitem in Hread.
    destruct (row !! "soru") as [soru|]; [|discriminate]. cbn [bind] in Hread.
    destruct (row !! "cevap") as [cevap|]; [|discriminate].
    injection Hread as <-. now exists soru, cevap.
  - right. exists SoruCevap. split; [in_entries | reflexivity].
  - exact Hbuild.
  - now exists soru, cevap.
Qed.




Lemma columns_read_entries (key : string) :
  key ∈ columns_read -> key ∈ flat_map entry_columns row_entries.
Proof.
  intros Hin. cbv [columns_read required_columns avg_keys app] in Hin.
  repeat (apply elem_of_cons in Hin as [->|Hin];
          [vm_compute; repeat (first [left; reflexivity | right]) |]).
  now apply elem_of_nil in Hin.
Qed.

Lemma entries_columns_read (key : string) :
  key ∈ flat_map entry_columns row_entries -> key ∈ columns_read.
Proof.
  intros Hin. cbv [row_entries flat_map entry_columns app] in Hin.
  repeat (apply elem_of_cons in Hin as [->|Hin];
          [vm_compute; repeat (first [left; reflexivity | right]) |]).
  now apply elem_of_nil in Hin.
Qed.

Lemma read_entry_columns row (e : row_entry) kv :
  read_entry int_of_text row e = Ok kv ->
  Forall (fun key => is_Some (row !! key)) (entry_columns e).
Proof.
  destruct e as [key how|]; cbn [read_entry entry_columns]; unfold getitem.
  - destruct (row !! key) as [c|] eqn:Hk; [|discriminate]. intros _.
    constructor; [exact (ex_intro _ c Hk) | constructor].
  - destruct (row !! "soru") as [s|] eqn:Hs; [|discriminate]. cbn [bind].
    destruct (row !! "cevap") as [c|] eqn:Hc; [|discriminate]. intros _.
    constructor; [exact (ex_intro _ s Hs)|].
    constructor; [exact (ex_intro _ c Hc) | constructor].
Qed.

Lemma read_entries_columns row (es : list row_entry) acc crd :
  read_entries int_of_text row es acc = Ok crd ->
  Forall (fun key => is_Some (row !! key)) (flat_map entry_columns es).
Proof.
  revert acc. induction es as [|e es IH]; intros acc; cbn [read_entries flat_map].
  - constructor.
  - destruct (read_entry int_of_text row e) as [kv|] eqn:He; [|discriminate].
    cbn [bind]. intros Hrest. apply Forall_app. split.
    + eapply read_entry_columns; eauto.
    + eapply IH; eauto.
Qed.

Lemma built_row_columns row crd (key : string) :
  build_row_data int_of_text row = Ok crd ->
  key ∈ columns_read -> is_Some (row !! key).
Proof.
  intros Hbuild Hin. unfold build_row_data in Hbuild.
  pose proof (read_entries_columns row row_entries ∅ crd Hbuild) as Hall.
  rewrite Forall_forall in Hall. now apply Hall, columns_read_entries.
Qed.

(** Two rows that agree on the columns the entries read give the same
    dict. *)
Lemma read_entry_ext row row' (e : row_entry) :
  (forall key, key ∈ entry_columns e -> row !! key = row' !! key) ->
  read_entry int_of_text row e = read_entry int_of_text row' e.
Proof.
  intros Hagree. destruct e as [key how|]; cbn [read_entry]; unfold getitem.
  - rewrite (Hagree key) by left. reflexivity.
  - rewrite (Hagree "soru") by left.
    rewrite (Hagree "cevap") by (right; left). reflexivity.
Qed.

Lemma read_entries_ext row row' (es : list row_entry) acc :
  (forall key, key ∈ flat_map entry_columns es -> row !! key = row' !! key) ->
  read_entries int_of_text row es acc = read_entries int_of_text row' es acc.
Proof.
  revert acc. induction es as [|e es IH]; intros acc Hagree; [reflexivity|].
  cbn [read_entries]. rewrite (read_entry_ext row row' e).
  - destruct (read_entry int_of_text row' e) as [kv|]; [|reflexivity].
    cbn [bind]. apply IH. intros key Hin. apply Hagree.
    cbn [flat_map]. apply elem_of_app. now right.
  - intros key Hin. apply Hagree. cbn [flat_map]. apply elem_of_app. now left.
Qed.

Lemma read_entry_KeyError row (e : row_entry) (key : string) :
  (forall s k, int_of_text s <> Raise (KeyError k)) ->
  read_entry int_of_text row e = Raise (KeyError key) ->
  row !! key = None /\ key ∈ entry_columns e.
Proof.
  intros Hint. destruct e as [k how|]; cbn [read_entry entry_columns];
    unfold getitem.
  - destruct (row !! k) as [c|] eqn:Hk; cbn [bind].
    + destruct how, c as [x|s]; cbn [convert bind]; try discriminate.
      destruct (int_of_text s) as [z|e] eqn:Hs; cbn [bind]; [discriminate|].
      intros [= ->]. now destruct (Hint s key).
    + intros [= <-]. split; [exact Hk | left].
  - destruct (row !! "soru") as [s|] eqn:Hs; cbn [bind].
    + destruct (row !! "cevap") as [c|] eqn:Hc; cbn [bind]; [discriminate|].
      intros [= <-]. split; [exact Hc | right; left].
    + intros [= <-]. split; [exact Hs | left].
Qed.


(** X1.  The dict of the first row is built only from a row that has all
    twenty-five columns the dict literal reads: the fifteen the endpoint
    checks and the ten averages it does not check. *)
Theorem report_needs_every_column row crd :
  build_row_data int_of_text row = Ok crd ->
  Forall (fun key => is_Some (row !! key)) columns_read /\
  length columns_read = 25%nat /\
  Forall (fun key => is_Some (crd !! key)) (entry_key <$> row_entries).
Proof.
  intros Hbuild. split; [|split; [reflexivity|]].
  - apply Forall_forall. intros key Hin. now apply (built_row_columns row crd).
  - apply Forall_forall. intros key Hin. now apply (built_row_keys row crd).
Qed.

(** X2.  When building the dict raises [KeyError], and [int] on a text does
    not raise one, the key is a column the row lacks, one of the twenty-five
    the dict literal reads. *)
Theorem build_row_data_KeyError row (key : string) :
  (forall s k, int_of_text s <> Raise (KeyError k)) ->
  build_row_data int_of_text row = Raise (KeyError key) ->
  row !! key = None /\ key ∈ columns_read.
Proof.
  intros Hint. unfold build_row_data.
  assert (Hgen : forall es acc,
    read_entries int_of_text row es acc = Raise (KeyError key) ->
    row !! key = None /\ key ∈ flat_map entry_columns es).
  { induction es as [|e es IH]; intros acc; cbn [read_entries flat_map];
      [discriminate|].
    destruct (read_entry int_of_text row e) as [kv|err] eqn:He; cbn [bind].
    - intros Hrest. destruct (IH _ Hrest) as [Hnone Hin].
      split; [exact Hnone|]. apply elem_of_app. now right.
    - intros [= ->]. destruct (read_entry_KeyError _ _ _ Hint He) as [Hn Hin].
      split; [exact Hn|]. apply elem_of_app. now left. }
  intros Hbuild. destruct (Hgen _ _ Hbuild) as [Hnone Hin].
  split; [exact Hnone | now apply entries_columns_read].
Qed.


(** X4.  On the dict the endpoint builds, [generate_llm_prompt] finds every
    key it reads, and it returns a prompt exactly when [tip] is 0 or 1: for
    any other [tip] no branch binds [prompt_instructions] and the function
    raises [UnboundLocalError]. *)
Theorem prompt_needs_tip_0_or_1 row crd (formatted_qa_html : string) :
  build_row_data int_of_text row = Ok crd ->
  exists tip : Z,
    crd !! "tip" = Some (Scalar (CNum (PInt tip))) /\
    match generate_llm_prompt crd formatted_qa_html with
    | Ok _ => tip = 0 \/ tip = 1
    | Raise e =>
        e = UnboundLocalError "prompt_instructions" /\ tip <> 0 /\ tip <> 1
    end.
Proof.
  intros Hbuild.
  destruct (built_row_tip row crd Hbuild) as (c & tip & _ & _ & Htip).
  exists tip. split; [exact Htip|].
  pose proof (fun key => built_row_fields row crd key Hbuild) as Hfield.
  unfold generate_llm_prompt, row_item. read_fields Hfield.
  rewrite Htip. cbn [bind equals_zero equals_one].
  destruct (Z.eqb_spec tip 0) as [->|H0]; [now left|].
  destruct (Z.eqb_spec tip 1) as [->|H1]; [now right|].
  now repeat split.
Qed.

End RowData.

Section Reports.

Context {float : Type} `{PyFloat float}.

Context (html_parser : string -> list node)
        (prettify : node -> string)
        (create_pdf_from_html : string -> result string)
        (logo_base64 : string)
        (int_of_text : string -> result Z)
        (str_exn : exn -> string)
        (url_quote : string -> string).

Implicit Types (row : gmap string (@cell float))
               (crd acc : gmap string (@row_value float))
               (df : @DataFrame float)
               (read_csv : string -> result (@DataFrame float))
               (generated_document :
                  gmap string (@row_value float) -> result string).

(** A table that passes the check of the columns and has a row is not
    empty. *)
Lemma checked_table_not_empty df row (rest : list (gmap string cell)) :
  forallb (has_column df) required_columns = true ->
  rows df = row :: rest ->
  df_empty df = false.
Proof.
  intros Hcols Hrows. unfold df_empty. rewrite Hrows.
  destruct (columns df) as [|col cols] eqn:Hc; [|reflexivity].
  cbn [required_columns forallb] in Hcols.
  apply andb_prop in Hcols as [Hcol _]. unfold has_column in Hcol.
  apply bool_decide_eq_true in Hcol. rewrite Hc in Hcol.
  now apply elem_of_nil in Hcol.
Qed.

(** The [try] block from the dict of the first row on, for a table that
    passes the check of the columns and has a row. *)
Lemma report_body_built read_csv generated_document (file_content : string)
    df row (rest : list (gmap string cell)) :
  read_csv file_content = Ok df ->
  forallb (has_column df) required_columns = true ->
  rows df = row :: rest ->
  report_body read_csv generated_document html_parser prettify
    create_pdf_from_html logo_base64 int_of_text url_quote file_content =
  let? crd := build_row_data int_of_text row in
  let? raw_html_content := generated_document crd in
  let? soup := assemble html_parser logo_base64 crd
                 (BeautifulSoup (html_parser raw_html_content)) in
  let? pdf_bytes := create_pdf_from_html (prettify soup) in
  let? kisi_adi := row_item crd "kisi_adi" in
  let? mulakat_adi := row_item crd "mulakat_adi" in
  Ok {| media_type := "application/pdf";
        content_disposition :=
          "attachment; filename*=UTF-8''"
          +:+ url_quote (str_value kisi_adi +:+ "_" +:+ str_value mulakat_adi
                         +:+ "_Rapor.pdf");
        body := pdf_bytes |}.
Proof.
  intros Hread Hcols Hrows. unfold report_body.
  rewrite Hread. cbn [bind]. rewrite Hcols. cbn [negb].
  rewrite (checked_table_not_empty df row rest Hcols Hrows).
  unfold iloc0. rewrite Hrows. reflexivity.
Qed.

(** The prompt of a dict the endpoint builds, by its [tip]. *)
Lemma built_row_prompt row crd (tip : Z) (formatted_qa_html : string) :
  build_row_data int_of_text row = Ok crd ->
  crd !! "tip" = Some (Scalar (CNum (PInt tip))) ->
  if bool_decide (tip = 0 \/ tip = 1)
  then exists prompt : string,
         generate_llm_prompt crd formatted_qa_html = Ok prompt
  else generate_llm_prompt crd formatted_qa_html
       = Raise (UnboundLocalError "prompt_instructions").
Proof.
  intros Hbuild Htip.
  pose proof (fun key => built_row_fields int_of_text row crd key Hbuild)
    as Hfield.
  unfold generate_llm_prompt, row_item. read_fields Hfield.
  rewrite Htip. cbn [bind equals_zero equals_one].
  destruct (Z.eqb_spec tip 0) as [->|H0];
    [rewrite bool_decide_eq_true_2 by (now left); eauto|].
  destruct (Z.eqb_spec tip 1) as [->|H1];
    [rewrite bool_decide_eq_true_2 by (now right); eauto|].
  rewrite bool_decide_eq_false_2 by lia. reflexivity.
Qed.

(** The cell [tip] of the row decides the [tip] of the dict. *)
Lemma built_row_tip_of row crd (x : @pynum float) :
  build_row_data int_of_text row = Ok crd ->
  row !! "tip" = Some (CNum x) ->
  crd !! "tip" = Some (Scalar (CNum (PInt (py_int x)))).
Proof.
  intros Hbuild Hx.
  destruct (built_row_tip int_of_text row crd Hbuild)
    as (c & tip & Hc & Hconv & Htip).
  rewrite Hx in Hc. injection Hc as <-. cbn [convert] in Hconv.
  injection Hconv as <-. exact Htip.
Qed.

(** X5.  A table whose [tip] is neither 0 nor 1 gets status 500 whatever the
    language model would answer: the prompt cannot be built, and the
    endpoint reports the [UnboundLocalError] of [generate_llm_prompt]. *)
Theorem unknown_tip_answers_500 read_csv
    (generate_content : string -> result string)
    (filename file_content : string) df row (rest : list (gmap string cell))
    crd (x : @pynum float) :
  ends_with filename ".csv" = true ->
  read_csv file_content = Ok df ->
  forallb (has_column df) required_columns = true ->
  rows df = row :: rest ->
  build_row_data int_of_text row = Ok crd ->
  row !! "tip" = Some (CNum x) -> py_int x <> 0 -> py_int x <> 1 ->
  generate_report read_csv (generated_document_of generate_content)
    html_parser prettify create_pdf_from_html logo_base64 int_of_text str_exn
    url_quote filename file_content
  = Raise (HTTPException 500
             ("Rapor oluşturulurken sunucuda bir hata oluştu: "
              +:+ str_exn (UnboundLocalError "prompt_instructions"))).
Proof.
  intros Hcsv Hread Hcols Hrows Hbuild Hx H0 H1.
  apply generate_report_internal_error; [exact Hcsv | | discriminate].
  rewrite (report_body_built _ _ file_content df row rest) by assumption.
  rewrite Hbuild. cbn [bind].
  destruct (built_row_soru_cevap int_of_text row crd Hbuild)
    as (soru & cevap & _ & _ & Hqa).
  pose proof (built_row_tip_of row crd x Hbuild Hx) as Htip.
  unfold generated_document_of, row_item. rewrite Htip, Hqa.
  cbn [bind format_qa_section].
  match goal with
  | |- context [generate_llm_prompt crd ?qa] =>
      pose proof (built_row_prompt row crd (py_int x) qa Hbuild Htip) as Hprompt
  end.
  rewrite bool_decide_eq_false_2 in Hprompt by lia.
  rewrite Hprompt. reflexivity.
Qed.


(** X7.  A response is a PDF only for a complete upload: the file name ends
    in [.csv], the table has the fifteen checked columns and a first row,
    the first row has all twenty-five columns the dict reads, and the file
    name of the download is made of the cells [kisi_adi] and [mulakat_adi]
    of that row. *)
Theorem report_answered_only_for_complete_upload read_csv generated_document
    (filename file_content : string) (response : Response) :
  generate_report read_csv generated_document html_parser prettify
    create_pdf_from_html logo_base64 int_of_text str_exn url_quote
    filename file_content = Ok response ->
  ends_with filename ".csv" = true /\
  exists df row (kisi_adi mulakat_adi : cell),
    read_csv file_content = Ok df /\
    Forall (fun col => col ∈ columns df) required_columns /\
    head (rows df) = Some row /\
    Forall (fun key => is_Some (row !! key)) columns_read /\
    row !! "kisi_adi" = Some kisi_adi /\
    row !! "mulakat_adi" = Some mulakat_adi /\
    media_type response = "application/pdf" /\
    content_disposition response =
      "attachment; filename*=UTF-8''"
      +:+ url_quote (str_value (Scalar kisi_adi) +:+ "_"
                     +:+ str_value (Scalar mulakat_adi) +:+ "_Rapor.pdf").
Proof.
  unfold generate_report.
  destruct (ends_with filename ".csv") eqn:Hcsv; cbn [negb]; [|discriminate].
  destruct (report_body _ _ _ _ _ _ _ _ _) as [r|e] eqn:Hbody;
    [|destruct e; discriminate].
  intros [= ->]. split; [reflexivity|].
  unfold report_body in Hbody.
  destruct (read_csv file_content) as [df|] eqn:Hread; [|discriminate].
  cbn [bind] in Hbody.
  destruct (forallb (has_column df) required_columns) eqn:Hcols;
    cbn [negb] in Hbody; [|discriminate].
  destruct (df_empty df); [discriminate|].
  unfold iloc0 in Hbody. destruct (rows df) as [|row rest] eqn:Hrows;
    [discriminate|].
  cbn [bind] in Hbody.
  destruct (build_row_data int_of_text row) as [crd|] eqn:Hbuild;
    [|discriminate].
  cbn [bind] in Hbody.
  destruct (generated_document crd) as [raw|]; [|discriminate].
  cbn [bind] in Hbody.
  destruct (assemble _ _ _ _) as [soup|]; [|discriminate].
  cbn [bind] in Hbody.
  destruct (create_pdf_from_html _) as [pdf|]; [|discriminate].
  cbn [bind] in Hbody.
  destruct (built_row_column int_of_text row crd "kisi_adi" AsIs)
    as (kisi & v1 & Hkisi & Hv1 & Hcrd1); [in_entries | only_entry | exact Hbuild |].
  destruct (built_row_column int_of_text row crd "mulakat_adi" AsIs)
    as (mulakat & v2 & Hmulakat & Hv2 & Hcrd2);
    [in_entries | only_entry | exact Hbuild |].
  cbn [convert] in Hv1, Hv2. apply Ok_inj in Hv1, Hv2. subst v1 v2.
  unfold row_item in Hbody. rewrite Hcrd1, Hcrd2 in Hbody.
  cbn [bind] in Hbody. apply Ok_inj in Hbody. subst response.
  exists df, row, kisi, mulakat.
  split; [reflexivity|]. split.
  { apply Forall_forall. intros col Hin.
    rewrite forallb_forall in Hcols.
    apply list_elem_of_In in Hin. apply Hcols in Hin.
    now apply bool_decide_eq_true in Hin. }
  split; [now rewrite Hrows|]. split.
  { apply Forall_forall. intros key Hin.
    now apply (built_row_columns int_of_text row crd). }
  repeat split; assumption.
Qed.

(** X8.  Of the table the endpoint reads the labels of the fifteen checked
    columns and, in the first row, the twenty-five columns of the dict: two
    tables that agree on these get the same answer, whatever their other
    rows and columns. *)
Theorem report_reads_first_row_only read_csv read_csv' generated_document
    (filename file_content : string) df df' row row'
    (rest rest' : list (gmap string cell)) :
  read_csv file_content = Ok df ->
  read_csv' file_content = Ok df' ->
  rows df = row :: rest ->
  rows df' = row' :: rest' ->
  (forall col, col ∈ required_columns ->
               (col ∈ columns df <-> col ∈ columns df')) ->
  (forall key, key ∈ columns_read -> row !! key = row' !! key) ->
  generate_report read_csv generated_document html_parser prettify
    create_pdf_from_html logo_base64 int_of_text str_exn url_quote
    filename file_content
  = generate_report read_csv' generated_document html_parser prettify
      create_pdf_from_html logo_base64 int_of_text str_exn url_quote
      filename file_content.
Proof.
  intros Hread Hread' Hrows Hrows' Hcols Hagree.
  unfold generate_report. destruct (ends_with filename ".csv"); [|reflexivity].
  cbn [negb].
  assert (Hhas : forall col, col ∈ required_columns ->
                   has_column df col = has_column df' col).
  { intros col Hin. unfold has_column. apply bool_decide_ext. now apply Hcols. }
  assert (Hall : forallb (has_column df) required_columns
                 = forallb (has_column df') required_columns).
  { clear - Hhas. induction required_columns as [|col cols IH]; [reflexivity|].
    cbn [forallb]. rewrite (Hhas col) by left. f_equal. apply IH.
    intros c Hc. apply Hhas. now right. }
  assert (Hmissing : missing_cols df = missing_cols df').
  { unfold missing_cols. clear - Hhas.
    induction required_columns as [|col cols IH]; [reflexivity|].
    cbn [List.filter]. rewrite (Hhas col) by left.
    rewrite IH; [reflexivity|]. intros c Hc. apply Hhas. now right. }
  assert (Hbody :
    report_body read_csv generated_document html_parser prettify
      create_pdf_from_html logo_base64 int_of_text url_quote file_content
    = report_body read_csv' generated_document html_parser prettify
        create_pdf_from_html logo_base64 int_of_text url_quote file_content).
  { destruct (forallb (has_column df) required_columns) eqn:Hchecked.
    - rewrite (report_body_built read_csv _ file_content df row rest)
        by assumption.
      rewrite (report_body_built read_csv' _ file_content df' row' rest')
        by (try assumption; now rewrite <- Hall).
      unfold build_row_data.
      rewrite (read_entries_ext int_of_text row row'); [reflexivity|].
      intros key Hin. now apply Hagree, entries_columns_read.
    - unfold report_body. rewrite Hread, Hread'. cbn [bind].
      rewrite <- Hall, Hchecked. cbn [negb]. now rewrite Hmissing. }
  now rewrite Hbody.
Qed.

End Reports.

(** * The texts of the document *)

Lemma remove_first_app_l (s : string) (l1 l2 : list string) :
  s ∈ l1 -> remove_first s (l1 ++ l2) = remove_first s l1 ++ l2.
Proof.
  induction l1 as [|x l1 IH]; intros Hin; [now apply elem_of_nil in Hin|].
  cbn [app remove_first]. destruct (decide (x = s)) as [_|Hne]; [reflexivity|].
  apply elem_of_cons in Hin as [->|Hin]; [congruence|].
  now rewrite IH.
Qed.

Lemma remove_first_app_r (s : string) (l1 l2 : list string) :
  s ∉ l1 -> remove_first s (l1 ++ l2) = l1 ++ remove_first s l2.
Proof.
  induction l1 as [|x l1 IH]; intros Hin; [reflexivity|].
  cbn [app remove_first]. apply not_elem_of_cons in Hin as [Hne Hin].
  destruct (decide (x = s)) as [->|_]; [congruence|]. now rewrite IH.
Qed.

Lemma remove_first_absent (s : string) (l : list string) :
  s ∉ l -> remove_first s l = l.
Proof.
  intros Hin. rewrite <- (app_nil_r l) at 1.
  rewrite remove_first_app_r by exact Hin. now rewrite app_nil_r.
Qed.

Section Extract.

Context (token : string).

(** Taking out the first text node equal to [token] removes that text and
    nothing else. *)
Lemma extract_found (n : node) :
  has_text token n = false ->
  match edit_found (has_text token) extract n with
  | Some n' =>
      strings n' = remove_first token (strings n) /\ tags n' = tags n
      /\ token ∈ strings n
  | None => token ∉ strings n
  end.
Proof.
  induction n as [tag_name attrs contents IH|text] using node_ind'.
  - intros _. cbn [edit_found strings tags].
    assert (Hlist :
      match edit_in (has_text token) extract
              (edit_found (has_text token) extract) contents with
      | Some cs' =>
          flat_map strings cs' = remove_first token (flat_map strings contents)
          /\ flat_map tags cs' = flat_map tags contents
          /\ token ∈ flat_map strings contents
      | None => token ∉ flat_map strings contents
      end).
    { induction contents as [|c cs IHcs]; [apply not_elem_of_nil|].
      apply Forall_cons in IH as [IHc IHrest]. specialize (IHcs IHrest).
      cbn [edit_in flat_map].
      destruct (has_text token c) eqn:Hc.
      - destruct c as [|text]; [discriminate|].
        apply bool_decide_eq_true in Hc as ->.
        cbn [extract app strings tags remove_first].
        rewrite decide_True by reflexivity.
        split; [reflexivity|]. split; [reflexivity | left].
      - specialize (IHc eq_refl).
        destruct (edit_found (has_text token) extract c) as [c'|].
        + destruct IHc as (Hs & Ht & Hin). cbn [flat_map].
          rewrite Hs, Ht, remove_first_app_l by exact Hin.
          split; [reflexivity|]. split; [reflexivity|].
          apply elem_of_app. now left.
        + destruct (edit_in _ _ _ cs) as [cs'|]; cbn [fmap option_fmap option_map].
          * destruct IHcs as (Hs & Ht & Hin). cbn [flat_map].
            rewrite Hs, Ht, remove_first_app_r by exact IHc.
            split; [reflexivity|]. split; [reflexivity|].
            apply elem_of_app. now right.
          * intros Hin. apply elem_of_app in Hin as [Hin|Hin]; tauto. }
    destruct (edit_in _ _ _ contents) as [cs'|];
      cbn [fmap option_fmap option_map strings tags].
    + destruct Hlist as (Hs & Ht & Hin). now rewrite Ht.
    + exact Hlist.
  - intros Htext. cbn [edit_found strings].
    apply bool_decide_eq_false in Htext. intros Hin.
    apply list_elem_of_singleton in Hin. congruence.
Qed.

End Extract.

Section Frame.

(** An edit that keeps the texts of the node it is applied to keeps the
    texts of the document. *)
Context (f : node -> list node).
Context (Hf : forall c, flat_map strings (f c) = strings c).

Lemma edit_found_strings (p : node -> bool) (n n' : node) :
  edit_found p f n = Some n' -> strings n' = strings n.
Proof.
  revert n'. induction n as [tag_name attrs contents IH|text] using node_ind';
    [|discriminate].
  cbn [edit_found]. intros n'.
  assert (Hlist : forall cs',
    edit_in p f (edit_found p f) contents = Some cs' ->
    flat_map strings cs' = flat_map strings contents).
  { induction contents as [|c cs IHcs]; [discriminate|].
    apply Forall_cons in IH as [IHc IHrest]. specialize (IHcs IHrest).
    cbn [edit_in]. intros cs'. destruct (p c).
    - intros [= <-]. rewrite flat_map_app, Hf. reflexivity.
    - destruct (edit_found p f c) as [c'|].
      + intros [= <-]. cbn [flat_map]. now rewrite (IHc c').
      + destruct (edit_in p f (edit_found p f) cs) as [l|]; [|discriminate].
        intros [= <-]. cbn [flat_map]. now rewrite (IHcs l).  }
  destruct (edit_in p f (edit_found p f) contents) as [cs'|]; [|discriminate].
  intros [= <-]. cbn [strings]. now apply Hlist.
Qed.

Lemma edit_first_strings (p : node -> bool) (n : node) :
  strings (edit_first p f n) = strings n.
Proof.
  unfold edit_first. destruct (edit_found p f n) as [n'|] eqn:Hedit;
    [|reflexivity].
  now apply (edit_found_strings p).
Qed.

Lemma edit_under_found_strings (q p : node -> bool) (inside : bool)
    (n n' : node) :
  edit_under_found q p f inside n = Some n' -> strings n' = strings n.
Proof.
  revert inside n'.
  induction n as [tag_name attrs contents IH|text] using node_ind';
    [|discriminate].
  cbn [edit_under_found]. intros inside n'.
  assert (Hlist : forall cs',
    edit_under_in q p f (edit_under_found q p f) inside contents = Some cs' ->
    flat_map strings cs' = flat_map strings contents).
  { induction contents as [|c cs IHcs]; [discriminate|].
    apply Forall_cons in IH as [IHc IHrest]. specialize (IHcs IHrest).
    cbn [edit_under_in]. intros cs'. destruct (inside && p c).
    - intros [= <-]. rewrite flat_map_app, Hf. reflexivity.
    - destruct (edit_under_found q p f (inside || q c) c) as [c'|] eqn:Hc.
      + intros [= <-]. cbn [flat_map]. now rewrite (IHc _ c' Hc).
      + destruct (edit_under_in q p f (edit_under_found q p f) inside cs)
          as [l|]; [|discriminate].
        intros [= <-]. cbn [flat_map]. now rewrite (IHcs l). }
  destruct (edit_under_in q p f (edit_under_found q p f) inside contents)
    as [cs'|]; [|discriminate].
  intros [= <-]. cbn [strings]. now apply Hlist.
Qed.

Lemma edit_first_under_strings (q p : node -> bool) (n : node) :
  strings (edit_first_under q p f n) = strings n.
Proof.
  unfold edit_first_under.
  destruct (edit_under_found q p f false n) as [n'|] eqn:Hedit; [|reflexivity].
  now apply (edit_under_found_strings q p false).
Qed.

End Frame.

(** X9.  The logo step changes no text of the document, and without a logo
    it changes nothing at all. *)
Theorem logo_step_keeps_text (logo_base64 : string) (soup : node) :
  strings (insert_logo logo_base64 soup) = strings soup /\
  (logo_base64 = "" -> insert_logo logo_base64 soup = soup).
Proof.
  split; [|now intros ->].
  unfold insert_logo. destruct logo_base64 as [|a s]; [reflexivity|].
  rewrite edit_first_strings.
  - apply edit_first_under_strings. intros [t at0 cs|text]; cbn; now rewrite ?app_nil_r.
  - intros [t at0 cs|text]; cbn; [|reflexivity].
    rewrite app_nil_r, flat_map_app. cbn. now rewrite app_nil_r.
Qed.

Section Tip.
Context {float : Type} `{PyFloat float}.

(** X10.  The [tip] step never fails on a dict that has [tip], never
    changes a tag or an attribute, and changes the texts only for [tip == 1],
    when it removes the first text node equal to the token and no other. *)
Theorem tip_step_removes_first_bare_token
    (current_row_data : gmap string (@row_value float)) (tip : row_value)
    (tag_name : string) (attrs : gmap string string) (contents : list node) :
  current_row_data !! "tip" = Some tip ->
  exists soup' : node,
    remove_uygunluk current_row_data (Tag tag_name attrs contents) = Ok soup' /\
    tags soup' = tags (Tag tag_name attrs contents) /\
    strings soup' =
      if equals_one tip
      then remove_first uygunluk_token (strings (Tag tag_name attrs contents))
      else strings (Tag tag_name attrs contents).
Proof.
  intros Htip. unfold remove_uygunluk, row_item. rewrite Htip. cbn [bind].
  destruct (equals_one tip); [|eauto].
  eexists. split; [reflexivity|]. unfold edit_first.
  pose proof (extract_found uygunluk_token (Tag tag_name attrs contents) eq_refl)
    as Hfound.
  destruct (edit_found (has_text uygunluk_token) extract
              (Tag tag_name attrs contents)) as [soup'|]; cbn [default].
  - destruct Hfound as (Hs & Ht & _). now split.
  - split; [reflexivity|]. now rewrite remove_first_absent.
Qed.
End Tip.

(** * The code fence around the answer of the language model *)

Lemma append_cons (a : Ascii.ascii) (s1 s2 : string) :
  String a s1 +:+ s2 = String a (s1 +:+ s2).
Proof. reflexivity. Qed.

Lemma append_nil_l (s : string) : "" +:+ s = s.
Proof. reflexivity. Qed.

Lemma append_assoc (s1 s2 s3 : string) :
  (s1 +:+ s2) +:+ s3 = s1 +:+ (s2 +:+ s3).
Proof.
  induction s1 as [|a s1 IH]; [reflexivity|].
  now rewrite !append_cons, IH.
Qed.

Lemma append_nil_r (s : string) : s +:+ "" = s.
Proof.
  induction s as [|a s IH]; [reflexivity|].
  now rewrite append_cons, IH.
Qed.

Lemma rev_app_append (s acc : string) :
  String.rev_app s acc = String.rev s +:+ acc.
Proof.
  unfold String.rev. revert acc. induction s as [|a s IH]; intros acc;
    [reflexivity|].
  cbn [String.rev_app]. rewrite (IH (String a acc)), (IH (String a "")).
  now rewrite append_assoc.
Qed.

Lemma rev_cons (a : Ascii.ascii) (s : string) :
  String.rev (String a s) = String.rev s +:+ String a "".
Proof. unfold String.rev at 1. cbn [String.rev_app]. apply rev_app_append. Qed.

Lemma rev_append (s1 s2 : string) :
  String.rev (s1 +:+ s2) = String.rev s2 +:+ String.rev s1.
Proof.
  induction s1 as [|a s1 IH]; [now rewrite append_nil_r|].
  rewrite append_cons, !rev_cons, IH. now rewrite append_assoc.
Qed.

Lemma rev_involutive (s : string) : String.rev (String.rev s) = s.
Proof.
  induction s as [|a s IH]; [reflexivity|].
  rewrite rev_cons, rev_append, IH. reflexivity.
Qed.

Lemma without_prefix_append (p s : string) : without_prefix p (p +:+ s) = Some s.
Proof.
  induction p as [|a p IH]; [now destruct s|].
  rewrite append_cons. cbn [without_prefix]. now rewrite Ascii.eqb_refl.
Qed.

Lemma removeprefix_append (p s : string) : removeprefix p (p +:+ s) = s.
Proof. unfold removeprefix. now rewrite without_prefix_append. Qed.

Lemma removesuffix_append (s suffix : string) :
  removesuffix suffix (s +:+ suffix) = s.
Proof.
  unfold removesuffix. rewrite rev_append, without_prefix_append.
  cbn [fmap option_fmap option_map default]. apply rev_involutive.
Qed.

Ltac space_facts :=
  unfold space1, space2, space3 in *;
  repeat match goal with
         | H : _ = true |- _ =>
             rewrite ?Bool.andb_true_iff, ?Bool.orb_true_iff, ?Z.eqb_eq,
               ?Z.leb_le in H
         end.

(** The last byte of a white space of two or three bytes is not a white
    space of one byte, and the last two bytes of one of three bytes are not
    one of two bytes. *)
Lemma space2_last (a b : Ascii.ascii) :
  space2 a b = true -> space1 b = false.
Proof.
  intros H2. apply Bool.not_true_iff_false. intros H1. space_facts. lia.
Qed.

Lemma space3_last (a b c : Ascii.ascii) :
  space3 a b c = true -> space1 c = false /\ space2 b c = false.
Proof.
  intros H3. split; apply Bool.not_true_iff_false; intros H1; space_facts; lia.
Qed.

Lemma lstrip_blank (ws s : string) :
  all_space ws = true -> lstrip (ws +:+ s) = lstrip s.
Proof.
  remember (String.length ws) as n eqn:Hn.
  assert (Hle : (String.length ws <= n)%nat) by lia. clear Hn.
  revert ws Hle. induction n as [|n IH]; intros ws Hle Hws.
  - destruct ws; [reflexivity | cbn in Hle; lia].
  - destruct ws as [|a s1]; [reflexivity|].
    cbn [all_space] in Hws. rewrite append_cons. cbn [lstrip].
    cbn [String.length] in Hle.
    destruct (space1 a); [apply IH; [lia | exact Hws]|].
    destruct s1 as [|b s2]; [discriminate|].
    rewrite append_cons. cbn [String.length] in Hle.
    destruct (space2 a b); [apply IH; [lia | exact Hws]|].
    destruct s2 as [|c s3]; [discriminate|].
    rewrite append_cons. cbn [String.length] in Hle.
    apply andb_prop in Hws as [-> Hws]. apply IH; [lia | exact Hws].
Qed.

Lemma lstrip_reversed_blank (ws t : string) :
  all_space ws = true ->
  lstrip_reversed (String.rev ws +:+ t) = lstrip_reversed t.
Proof.
  remember (String.length ws) as n eqn:Hn.
  assert (Hle : (String.length ws <= n)%nat) by lia. clear Hn.
  revert ws t Hle. induction n as [|n IH]; intros ws t Hle Hws.
  - destruct ws; [reflexivity | cbn in Hle; lia].
  - destruct ws as [|a s1]; [reflexivity|].
    cbn [all_space] in Hws. cbn [String.length] in Hle.
    rewrite rev_cons, append_assoc, append_cons, append_nil_l.
    destruct (space1 a) eqn:H1.
    { rewrite IH by (lia || exact Hws). cbn [lstrip_reversed]. now rewrite H1. }
    destruct s1 as [|b s2]; [discriminate|]. cbn [String.length] in Hle.
    rewrite rev_cons, append_assoc, append_cons, append_nil_l.
    destruct (space2 a b) eqn:H2.
    { rewrite IH by (lia || exact Hws). cbn [lstrip_reversed].
      now rewrite (space2_last a b H2), H2. }
    destruct s2 as [|c s3]; [discriminate|]. cbn [String.length] in Hle.
    rewrite rev_cons, append_assoc, append_cons, append_nil_l.
    apply andb_prop in Hws as [H3 Hws].
    rewrite IH by (lia || exact Hws). cbn [lstrip_reversed].
    destruct (space3_last a b c H3) as [-> ->]. now rewrite H3.
Qed.

(** X11.  An answer that is a document between the fence of an [html] code
    block, with white space around the block, is unwrapped to exactly the
    document, whatever the document is. *)
Theorem fenced_answer_unwrapped (before doc after : string) :
  all_space before = true -> all_space after = true ->
  raw_html_content (before +:+ "```html" +:+ doc +:+ "```" +:+ after) = doc.
Proof.
  intros Hbefore Hafter. unfold raw_html_content, strip, rstrip.
  rewrite (lstrip_blank before) by exact Hbefore.
  assert (Hleft : forall s, lstrip ("```html" +:+ s) = "```html" +:+ s)
    by reflexivity.
  rewrite Hleft.
  rewrite <- (append_assoc "```html" doc), <- append_assoc.
  rewrite (rev_append _ after), (lstrip_reversed_blank after) by exact Hafter.
  rewrite (rev_append _ "```").
  assert (Hright : forall s, lstrip_reversed (String.rev "```" +:+ s)
                             = String.rev "```" +:+ s) by reflexivity.
  rewrite Hright, <- rev_append, rev_involutive.
  rewrite (append_assoc "```html"), removeprefix_append.
  apply removesuffix_append.
Qed.

(** * The geometry of the charts in exact arithmetic *)

Abbreviation qnum := (@pynum Qc).

























(** * The section of questions and answers *)

Section Questions.

Context {float : Type} `{PyFloat float}.

Lemma qa_items_from (acc : string) (items : list (@cell float * @cell float)) :
  foldl (fun html item =>
           html +:+ qa_item (str_value (Scalar item.1))
                            (str_value (Scalar item.2))) acc items
  = acc +:+ foldl (fun html item =>
                     html +:+ qa_item (str_value (Scalar item.1))
                                      (str_value (Scalar item.2))) "" items.
Proof.
  revert acc. induction items as [|item items IH]; intros acc; cbn [foldl].
  - now rewrite append_nil_r.
  - rewrite (IH (acc +:+ _)), (IH ("" +:+ _)), append_nil_l.
    apply append_assoc.
Qed.

(** X15.  On a list [format_qa_section] never fails and gives the blocks of
    the items one after the other, in the order of the list: the section of
    two lists joined is the section of the first followed by the section of
    the second, and the section of one item is its block, with the texts of
    the question and of the answer as they are. *)
Theorem format_qa_section_in_order
    (items1 items2 : list (@cell float * @cell float)) (soru cevap : cell) :
  exists html1 html2 : string,
    format_qa_section (QaList items1) = Ok html1 /\
    format_qa_section (QaList items2) = Ok html2 /\
    format_qa_section (QaList (items1 ++ items2)) = Ok (html1 +:+ html2) /\
    format_qa_section (QaList [(soru, cevap)])
    = Ok (qa_item (str_value (Scalar soru)) (str_value (Scalar cevap))).
Proof.
  eexists _, _. split; [reflexivity|]. split; [reflexivity|]. split.
  - cbn [format_qa_section]. rewrite foldl_app. now rewrite qa_items_from.
  - reflexivity.
Qed.

End Questions.

(** * The properties on concrete uploads *)

Lemma built_row_Ok (tip : Z) :
  build_row_data refuse_text (complete_row tip) = Ok (built_row tip).
Proof.
  unfold built_row.
  assert (Hok : match build_row_data refuse_text (complete_row tip) with
                | Ok _ => true
                | Raise _ => false
                end = true) by (vm_compute; reflexivity).
  destruct (build_row_data refuse_text (complete_row tip)) as [crd|e];
    [reflexivity | discriminate Hok].
Qed.

(** X1 on a row with all twenty-five columns. *)
Lemma report_needs_every_column_witness :
  Forall (fun key => is_Some (complete_row 0 !! key)) columns_read /\
  length columns_read = 25%nat /\
  Forall (fun key => is_Some (built_row 0 !! key)) (entry_key <$> row_entries).
Proof.
  apply (report_needs_every_column refuse_text (complete_row 0) (built_row 0)).
  apply built_row_Ok.
Defined.

(** X2 on the row without averages: the first average the dict literal
    reads is the key of the [KeyError]. *)
Lemma build_row_data_KeyError_witness :
  row_without_averages !! "avg_duygu_mutlu_%" = None /\
  "avg_duygu_mutlu_%" ∈ columns_read.
Proof.
  apply (build_row_data_KeyError refuse_text).
  - intros s k. discriminate.
  - vm_compute. reflexivity.
Defined.


(** X4 on a row whose [tip] is 2: no prompt. *)
Lemma prompt_needs_tip_0_or_1_witness :
  generate_llm_prompt (built_row 2) "soru"
  = Raise (UnboundLocalError "prompt_instructions").
Proof.
  destruct (prompt_needs_tip_0_or_1 refuse_text (complete_row 2) (built_row 2)
              "soru" (built_row_Ok 2)) as (tip & Htip & Hprompt).
  destruct (generate_llm_prompt (built_row 2) "soru") as [prompt|e].
  - exfalso. vm_compute in Htip. injection Htip as <-. lia.
  - now destruct Hprompt as [-> _].
Defined.

(** X5 on the complete table with [tip] 2, whatever the language model
    answers. *)
Lemma unknown_tip_answers_500_witness :
  generate_report (fun _ => Ok (complete_table 2))
    (generated_document_of fenced_answer) text_parser texts_of
    document_as_pdf "" refuse_text describe unquoted "rapor.csv" ""
  = Raise (HTTPException 500
             ("Rapor oluşturulurken sunucuda bir hata oluştu: "
              +:+ describe (UnboundLocalError "prompt_instructions"))).
Proof.
  apply (unknown_tip_answers_500 text_parser texts_of document_as_pdf ""
           refuse_text describe unquoted (fun _ => Ok (complete_table 2))
           fenced_answer "rapor.csv" "" (complete_table 2) (complete_row 2) []
           (built_row 2) (PInt 2)).
  - vm_compute. reflexivity.
  - reflexivity.
  - vm_compute. reflexivity.
  - reflexivity.
  - apply built_row_Ok.
  - vm_compute. reflexivity.
  - cbn. lia.
  - cbn. lia.
Defined.


(** The response to the complete table with [tip] 0. *)
Lemma complete_table_response :
  generate_report (fun _ => Ok (complete_table 0))
    (generated_document_of fenced_answer) text_parser texts_of
    document_as_pdf "" refuse_text describe unquoted "rapor.csv" ""
  = Ok {| media_type := "application/pdf";
          content_disposition :=
            "attachment; filename*=UTF-8''Ada_Backend_Rapor.pdf";
          body := nl +:+ "<p>yorum</p>" +:+ nl |}.
Proof. vm_compute. reflexivity. Qed.

(** X7 on that response. *)
Lemma report_answered_only_for_complete_upload_witness :
  ends_with "rapor.csv" ".csv" = true /\
  exists df row (kisi_adi mulakat_adi : cell),
    Ok (complete_table 0) = Ok df /\
    Forall (fun col => col ∈ columns df) required_columns /\
    head (rows df) = Some row /\
    Forall (fun key => is_Some (row !! key)) columns_read /\
    row !! "kisi_adi" = Some kisi_adi /\
    row !! "mulakat_adi" = Some mulakat_adi /\
    media_type {| media_type := "application/pdf";
                  content_disposition :=
                    "attachment; filename*=UTF-8''Ada_Backend_Rapor.pdf";
                  body := nl +:+ "<p>yorum</p>" +:+ nl |}
      = "application/pdf" /\
    "attachment; filename*=UTF-8''Ada_Backend_Rapor.pdf" =
      "attachment; filename*=UTF-8''"
      +:+ unquoted (str_value (Scalar kisi_adi) +:+ "_"
                    +:+ str_value (Scalar mulakat_adi) +:+ "_Rapor.pdf").
Proof.
  exact (report_answered_only_for_complete_upload text_parser texts_of
           document_as_pdf "" refuse_text describe unquoted
           (fun _ => Ok (complete_table 0))
           (generated_document_of fenced_answer) "rapor.csv" "" _
           complete_table_response).
Defined.

(** X8 on the complete table and the table with one more column and one
    more row. *)
Lemma report_reads_first_row_only_witness :
  generate_report (fun _ => Ok (complete_table 1))
    (generated_document_of fenced_answer) text_parser texts_of
    document_as_pdf "" refuse_text describe unquoted "rapor.csv" ""
  = generate_report (fun _ => Ok (wider_table 1))
      (generated_document_of fenced_answer) text_parser texts_of
      document_as_pdf "" refuse_text describe unquoted "rapor.csv" "".
Proof.
  apply (report_reads_first_row_only text_parser texts_of document_as_pdf ""
           refuse_text describe unquoted (fun _ => Ok (complete_table 1))
           (fun _ => Ok (wider_table 1)) (generated_document_of fenced_answer)
           "rapor.csv" "" (complete_table 1) (wider_table 1) (complete_row 1)
           (<["not" := CStr "okunmaz"]> (complete_row 1)) []
           [row_without_averages]).
  - reflexivity.
  - reflexivity.
  - reflexivity.
  - reflexivity.
  - intros col Hin. cbn [columns complete_table wider_table]. split.
    + intros Hc. now right.
    + intros Hc. apply elem_of_cons in Hc as [->|Hc]; [|exact Hc].
      exfalso. unfold required_columns in Hin.
      repeat (apply elem_of_cons in Hin as [Hin|Hin]; [discriminate Hin|]).
      now apply elem_of_nil in Hin.
  - intros key Hin. rewrite lookup_insert_ne; [reflexivity|].
    intros <-. cbv [columns_read required_columns avg_keys app] in Hin.
    repeat (apply elem_of_cons in Hin as [Hin|Hin]; [discriminate Hin|]).
    now apply elem_of_nil in Hin.
Defined.

(** X10 on the document whose token is a text node of its own. *)
Lemma tip_step_removes_first_bare_token_witness :
  exists soup' : node,
    remove_uygunluk (row_data_of 1) document_with_bare_token = Ok soup' /\
    tags soup' = tags document_with_bare_token /\
    strings soup' = ["yorum"].
Proof.
  destruct (tip_step_removes_first_bare_token (row_data_of 1)
              (Scalar (CNum (PInt 1))) "[document]" ∅
              [ Tag "body" ∅
                  [ Tag "p" ∅ [NavigableString "yorum"];
                    NavigableString uygunluk_token ] ])
    as (soup' & Hstep & Htags & Hstrings).
  - vm_compute. reflexivity.
  - exists soup'. split; [exact Hstep|]. split; [exact Htags|].
    rewrite Hstrings. vm_compute. reflexivity.
Defined.

(** X11 on an answer with a line break before the fence and after it. *)
Lemma fenced_answer_unwrapped_witness :
  raw_html_content (nl +:+ "```html" +:+ "<p>yorum</p>" +:+ "```" +:+ " " +:+ nl)
  = "<p>yorum</p>".
Proof.
  apply (fenced_answer_unwrapped nl "<p>yorum</p>" (" " +:+ nl));
    vm_compute; reflexivity.
Defined.


